(** * de_laws_to_json: the document parser of [process_de_laws.py]

    A shallow embedding of [process_file] and of the batch loop and merge of
    [main], together with the properties of the key registry, of the norm
    filter and of the paragraph numbering.

    Conventions of the embedding.
    - A Python [str] is a [string] whose characters are the code points
      U+0000 to U+00FF; the section sign is code point 167.  On that range
      the character classes below are the ones of Python 3 ([str.isspace],
      [str.isdigit], and the classes of the [re] module on [str] patterns).
    - A Python [dict] is an association list kept in insertion order.
    - A raised exception is a value of [exn]; the world at the moment of the
      raise is kept.
    - The worker pool of [main] is run as one worker that takes the files in
      a given order; the dictionaries of the module are those of that
      worker.
    - The [norm] elements of a document are not nested in one another (in
      the source format they are siblings), so that no content block is read
      again after its [SUP] elements were taken out of the tree. *)

From Stdlib Require Import String Ascii List ZArith Lia Bool Arith.
From Stdlib Require Import DecimalString.
From Stdlib Require DecimalN.
Import ListNotations.
Open Scope string_scope.
Set Warnings "-register-all".

(** ** Characters and the [str] methods used by the parser *)

Module Text.

Definition code (c : ascii) : nat := nat_of_ascii c.

Definition between (lo hi : nat) (c : ascii) : bool :=
  (lo <=? code c)%nat && (code c <=? hi)%nat.

Definition is_code (n : nat) (c : ascii) : bool := (code c =? n)%nat.

(** [str.isspace], also the class [\s]. *)
Definition is_space (c : ascii) : bool :=
  between 9 13 c || between 28 32 c || is_code 133 c || is_code 160 c.

(** The class [\d]: decimal digits. *)
Definition is_decimal (c : ascii) : bool := between 48 57 c.

(** [str.isdigit] on one character: decimal digits and the superscripts
    one, two and three. *)
Definition isdigit_char (c : ascii) : bool :=
  is_decimal c || is_code 178 c || is_code 179 c || is_code 185 c.

(** The class [[a-zA-Z]]. *)
Definition is_ascii_letter (c : ascii) : bool :=
  between 65 90 c || between 97 122 c.

Definition is_alpha (c : ascii) : bool :=
  is_ascii_letter c || is_code 170 c || is_code 181 c || is_code 186 c
  || between 192 214 c || between 216 246 c || between 248 255 c.

(** The class [\w]: alphanumeric (letters, digits, the fractions
    188 to 190) or the underscore. *)
Definition is_word (c : ascii) : bool :=
  is_alpha c || isdigit_char c || between 188 190 c || is_code 95 c.

Definition section_sign : ascii := ascii_of_nat 167.
Definition newline : ascii := ascii_of_nat 10.

Fixpoint take (n : nat) (s : string) : string :=
  match n, s with
  | S n', String c s' => String c (take n' s')
  | _, _ => EmptyString
  end.

Fixpoint drop (n : nat) (s : string) : string :=
  match n, s with
  | S n', String _ s' => drop n' s'
  | _, _ => s
  end.

Fixpoint all_chars (p : ascii -> bool) (s : string) : bool :=
  match s with
  | EmptyString => true
  | String c s' => p c && all_chars p s'
  end.

Fixpoint rev_acc (s acc : string) : string :=
  match s with
  | EmptyString => acc
  | String c s' => rev_acc s' (String c acc)
  end.

Definition rev (s : string) : string := rev_acc s EmptyString.

(** [s.lstrip()], [s.rstrip()], [s.strip()]. *)
Fixpoint lstrip (s : string) : string :=
  match s with
  | String c s' => if is_space c then lstrip s' else s
  | EmptyString => EmptyString
  end.

Definition rstrip (s : string) : string := rev (lstrip (rev s)).

Definition strip (s : string) : string := rstrip (lstrip s).

(** [s.isdigit()]: at least one character, all of them digits. *)
Definition isdigit (s : string) : bool :=
  match s with
  | EmptyString => false
  | _ => all_chars isdigit_char s
  end.

(** Start of the slice [s[i:]] and end of the slice [s[:i]], as Python
    clamps them. *)
Definition slice_index (i : Z) (len : nat) : nat :=
  if (i <? 0)%Z then Z.to_nat (Z.max 0 (Z.of_nat len + i))
  else Nat.min (Z.to_nat i) len.

Definition slice_from (i : Z) (s : string) : string :=
  drop (slice_index i (String.length s)) s.

Definition slice_to (i : Z) (s : string) : string :=
  take (slice_index i (String.length s)) s.

(** [s.split()]: the maximal runs of characters that are not whitespace.
    [cur] is the run being read, reversed. *)
Fixpoint split_acc (s : string) (cur : string) : list string :=
  match s with
  | EmptyString =>
      match cur with EmptyString => [] | _ => [rev cur] end
  | String c s' =>
      if is_space c then
        match cur with
        | EmptyString => split_acc s' EmptyString
        | _ => rev cur :: split_acc s' EmptyString
        end
      else split_acc s' (String c cur)
  end.

Definition split (s : string) : list string := split_acc s EmptyString.

(** [sep.join(l)]. *)
Fixpoint join (sep : string) (l : list string) : string :=
  match l with
  | [] => EmptyString
  | [x] => x
  | x :: l' => x ++ sep ++ join sep l'
  end.

(** [s.split('.')[0]]: the text before the first dot. *)
Fixpoint before_dot (s : string) : string :=
  match s with
  | EmptyString => EmptyString
  | String c s' =>
      if is_code 46 c then EmptyString else String c (before_dot s')
  end.

(** [str(n)] of a non-negative integer and [int(s)] of a string of decimal
    digits. *)
Definition str_of_N (n : N) : string :=
  NilZero.string_of_uint (N.to_uint n).

Definition int_of_digits (s : string) : N :=
  match NilZero.uint_of_string s with
  | Some u => N.of_uint u
  | None => 0%N
  end.

End Text.

(** ** Regular expressions as the [re] module applies them *)

Module Re.
Import Text.

Inductive regex : Type :=
| Eps
| Class (p : ascii -> bool)
| Cat (r1 r2 : regex)
| Alt (r1 r2 : regex)
| Star (r : regex)
| WordB
| Bol
| Eol.

Definition Chr (c : ascii) : regex := Class (Ascii.eqb c).
Definition Plus (r : regex) : regex := Cat r (Star r).
Definition Opt (r : regex) : regex := Alt r Eps.

Fixpoint Lit (s : string) : regex :=
  match s with
  | EmptyString => Eps
  | String c s' => Cat (Chr c) (Lit s')
  end.

Definition word_before (prev : option ascii) : bool :=
  match prev with Some c => is_word c | None => false end.

Definition word_after (s : string) : bool :=
  match s with String c _ => is_word c | EmptyString => false end.

(** The backtracking matcher: [run r prev s k] matches [r] at a position
    whose previous character is [prev] and whose remaining input is [s],
    and hands the position after the match to [k]; alternatives are tried
    in the order of the [re] module (left branch first, greedy
    repetition).  A repetition goes round at most once per remaining
    character, each round having to consume input. *)
Fixpoint run {A : Type} (r : regex) (prev : option ascii) (s : string)
    (k : option ascii -> string -> option A) : option A :=
  match r with
  | Eps => k prev s
  | Class p =>
      match s with
      | String c s' => if p c then k (Some c) s' else None
      | EmptyString => None
      end
  | Cat r1 r2 => run r1 prev s (fun prev' s' => run r2 prev' s' k)
  | Alt r1 r2 =>
      match run r1 prev s k with
      | Some x => Some x
      | None => run r2 prev s k
      end
  | Star r1 =>
      (fix loop (n : nat) (prev : option ascii) (s : string) : option A :=
         match n with
         | O => k prev s
         | S n' =>
             match run r1 prev s
                     (fun prev' s' =>
                        if (String.length s' <? String.length s)%nat
                        then loop n' prev' s' else None) with
             | Some x => Some x
             | None => k prev s
             end
         end) (String.length s) prev s
  | WordB =>
      if xorb (word_before prev) (word_after s) then k prev s else None
  | Bol => match prev with None => k prev s | Some _ => None end
  | Eol =>
      match s with
      | EmptyString => k prev s
      | String c EmptyString =>
          if Ascii.eqb c newline then k prev s else None
      | _ => None
      end
  end.

(** The rest of the input after the match of [r] at the given position. *)
Definition accept (_ : option ascii) (rest : string) : option string :=
  Some rest.

Definition match_here (r : regex) (prev : option ascii) (s : string)
  : option string :=
  run r prev s accept.

(** The text matched, given the input and what is left of it. *)
Definition matched (s rest : string) : string :=
  take (String.length s - String.length rest) s.

(** [re.match(r, s)]: the matched text, at the start of [s] only. *)
Definition re_match (r : regex) (s : string) : option string :=
  option_map (matched s) (match_here r None s).

(** [re.search(r, s).group()]: the leftmost match. *)
Fixpoint search_from (r : regex) (prev : option ascii) (s : string)
  : option string :=
  match match_here r prev s with
  | Some rest => Some (matched s rest)
  | None =>
      match s with
      | EmptyString => None
      | String c s' => search_from r (Some c) s'
      end
  end.

Definition re_search (r : regex) (s : string) : option string :=
  search_from r None s.

(** [re.sub(r, repl, s)] for a pattern that matches no empty text: the
    matches are replaced from left to right, without overlap.  [n] bounds
    the number of characters still to read. *)
Fixpoint sub_from (n : nat) (r : regex) (repl : string)
    (prev : option ascii) (s : string) : string :=
  match n with
  | O => s
  | S n' =>
      match s with
      | EmptyString => EmptyString
      | String c s' =>
          match match_here r prev s with
          | Some rest =>
              if (String.length rest <? String.length s)%nat then
                repl ++ sub_from n' r repl
                          (match rev (matched s rest) with
                           | String l _ => Some l
                           | EmptyString => prev
                           end) rest
              else String c (sub_from n' r repl (Some c) s')
          | None => String c (sub_from n' r repl (Some c) s')
          end
      end
  end.

Definition re_sub (r : regex) (repl : string) (s : string) : string :=
  sub_from (String.length s) r repl None s.

End Re.

Import Text Re.

(** ** Python values, dictionaries and exceptions *)

(** What [convert_xml_to_dict] builds, and [None]. *)
Inductive pyval : Type :=
| VNone
| VStr (s : string)
| VList (l : list pyval)
| VDict (d : list (string * pyval)).

Inductive exn : Type :=
| AttributeError
| TypeError
| KeyError
| IndexError.

Inductive res (A : Type) : Type :=
| Ok (a : A)
| Raise (e : exn).
Arguments Ok {A} a.
Arguments Raise {A} e.

Definition res_bind {A B : Type} (r : res A) (f : A -> res B) : res B :=
  match r with
  | Ok a => f a
  | Raise e => Raise e
  end.

(** Dictionaries in insertion order: [d.get(k)], [d[k] = v], [del d[k]]. *)
Module Dict.
Section WithKey.
Context {K V : Type} (eqb : K -> K -> bool).

Fixpoint get (k : K) (d : list (K * V)) : option V :=
  match d with
  | [] => None
  | (k', v) :: d' => if eqb k k' then Some v else get k d'
  end.

Definition mem (k : K) (d : list (K * V)) : bool :=
  match get k d with Some _ => true | None => false end.

Fixpoint set (k : K) (v : V) (d : list (K * V)) : list (K * V) :=
  match d with
  | [] => [(k, v)]
  | (k', v') :: d' =>
      if eqb k k' then (k', v) :: d' else (k', v') :: set k v d'
  end.

Fixpoint del (k : K) (d : list (K * V)) : list (K * V) :=
  match d with
  | [] => []
  | (k', v') :: d' => if eqb k k' then d' else (k', v') :: del k d'
  end.
End WithKey.
End Dict.

(** A key of [all_laws] and [file_keys]: a string, or [None]. *)
Definition hkey : Type := option string.

Definition hkey_eqb (a b : hkey) : bool :=
  match a, b with
  | Some x, Some y => String.eqb x y
  | None, None => true
  | _, _ => false
  end.

(** Lists and dictionaries are not hashable. *)
Definition hashable (v : pyval) : res hkey :=
  match v with
  | VStr s => Ok (Some s)
  | VNone => Ok None
  | VList _ | VDict _ => Raise TypeError
  end.

(** Truth value of a Python value. *)
Definition truthy (v : pyval) : bool :=
  match v with
  | VNone => false
  | VStr s => negb (String.eqb s EmptyString)
  | VList l => match l with [] => false | _ => true end
  | VDict d => match d with [] => false | _ => true end
  end.

(** [a == b]; dictionaries compare without regard to order. *)
Fixpoint pyval_eqb (a b : pyval) : bool :=
  match a, b with
  | VNone, VNone => true
  | VStr x, VStr y => String.eqb x y
  | VList l1, VList l2 =>
      (fix go (l1 l2 : list pyval) : bool :=
         match l1, l2 with
         | [], [] => true
         | x :: l1', y :: l2' => pyval_eqb x y && go l1' l2'
         | _, _ => false
         end) l1 l2
  | VDict d1, VDict d2 =>
      (List.length d1 =? List.length d2)%nat
      && (fix go (d : list (string * pyval)) : bool :=
            match d with
            | [] => true
            | (k, v) :: d' =>
                match Dict.get String.eqb k d2 with
                | Some v' => pyval_eqb v v'
                | None => false
                end && go d'
            end) d1
  | _, _ => false
  end.

(** [v.get(k)] and [v.get(k, default)]; only a dictionary has [get]. *)
Definition py_get_default (k : string) (default : pyval) (v : pyval)
  : res pyval :=
  match v with
  | VDict d =>
      Ok (match Dict.get String.eqb k d with
          | Some x => x
          | None => default
          end)
  | _ => Raise AttributeError
  end.

Definition py_get (k : string) (v : pyval) : res pyval :=
  py_get_default k VNone v.

(** ** The parsed document (the [BeautifulSoup] tree) *)

Inductive tag : Type :=
| Txt (s : string)
| El (name : string) (attrs : list (string * string)) (contents : list tag).

Module Soup.

Definition is_named (n : string) (t : tag) : bool :=
  match t with
  | El n' _ _ => String.eqb n n'
  | Txt _ => false
  end.

(** The descendants of a tag in document order. *)
Fixpoint descendants (t : tag) : list tag :=
  match t with
  | Txt _ => []
  | El _ _ ks =>
      (fix go (l : list tag) : list tag :=
         match l with
         | [] => []
         | k :: l' => (k :: descendants k ++ go l')%list
         end) ks
  end.

(** [t.find_all(n)], [t.find(n)] (also written [t.n]) and
    [t.find_all(n, recursive=False)]. *)
Definition find_all (n : string) (t : tag) : list tag :=
  filter (is_named n) (descendants t).

Definition find (n : string) (t : tag) : option tag :=
  hd_error (find_all n t).

Definition children (n : string) (t : tag) : list tag :=
  match t with
  | El _ _ ks => filter (is_named n) ks
  | Txt _ => []
  end.

(** The strings below a tag in document order. *)
Fixpoint strings (t : tag) : list string :=
  match t with
  | Txt s => [s]
  | El _ _ ks =>
      (fix go (l : list tag) : list string :=
         match l with
         | [] => []
         | k :: l' => (strings k ++ go l')%list
         end) ks
  end.

(** [t.text]. *)
Definition text (t : tag) : string := join EmptyString (strings t).

(** [t.get_text(sep, strip=True)]: every string stripped, the empty ones
    left out. *)
Definition get_text_strip (sep : string) (t : tag) : string :=
  join sep
    (filter (fun s => negb (String.eqb s EmptyString))
       (map strip (strings t))).

(** [t.string]: the only string below a chain of only children. *)
Fixpoint tag_string (t : tag) : option string :=
  match t with
  | Txt s => Some s
  | El _ _ [k] => tag_string k
  | El _ _ _ => None
  end.

(** The tree without the descendants that satisfy [p] ([decompose] or
    [extract] applied to each of them). *)
Fixpoint without (p : tag -> bool) (t : tag) : tag :=
  match t with
  | Txt s => Txt s
  | El n a ks =>
      El n a
        ((fix go (l : list tag) : list tag :=
            match l with
            | [] => []
            | k :: l' => if p k then go l' else without p k :: go l'
            end) ks)
  end.

(** [t.get(a)] of an attribute. *)
Definition attr (a : string) (t : tag) : option string :=
  match t with
  | El _ at_ _ => Dict.get String.eqb a at_
  | Txt _ => None
  end.

End Soup.

(** [convert_xml_to_dict]: a tag with a non-empty [string] is that string;
    any other tag is the dictionary of its child tags, a repeated name
    being promoted to a list.  The dictionary built is always a [dict], so
    the [ValueError] of the source is never raised. *)
Definition add_child (d : list (string * pyval)) (n : string) (v : pyval)
  : list (string * pyval) :=
  match Dict.get String.eqb n d with
  | Some (VList l) => Dict.set String.eqb n (VList (l ++ [v])%list) d
  | Some old => Dict.set String.eqb n (VList [old; v]) d
  | None => Dict.set String.eqb n v d
  end.

Fixpoint convert_xml_to_dict (element : tag) : pyval :=
  match Soup.tag_string element with
  | Some (String c s) => VStr (String c s)
  | _ =>
      match element with
      | Txt _ => VDict []
      | El _ _ ks =>
          VDict
            ((fix go (l : list tag) (children_dict : list (string * pyval))
                : list (string * pyval) :=
                match l with
                | [] => children_dict
                | Txt _ :: l' => go l' children_dict
                | (El n _ _ as child) :: l' =>
                    go l' (add_child children_dict n
                             (convert_xml_to_dict child))
                end) ks [])
      end
  end.

(** Called on the result of a [find] that may be [None]. *)
Definition convert_found (element : option tag) : res pyval :=
  match element with
  | Some e => Ok (convert_xml_to_dict e)
  | None => Raise AttributeError
  end.

(** ** The records built by [process_file] *)

Record paragraph : Type := {
  paragraph_id : string;
  token : N;
  content : string
}.

Record norm : Type := {
  norm_id : string;
  norm_title : string;
  paragraphs : list paragraph
}.

Record law : Type := {
  meta_source : string;
  meta_download_date : string;
  meta_title : string;
  meta_last_changed : pyval;
  meta_alt_title : string;
  metadaten : pyval;
  norms : list norm
}.

(** What is written to the JSON file of one document. *)
Record result : Type := {
  key : string;
  output : law;
  unprocessed_absatze : list string
}.

(** One file of the input folder: its name, the date of its creation time
    and its parsed contents. *)
Record document : Type := {
  filename : string;
  download_date : string;
  soup : tag
}.

(** The module-level dictionaries, the output folder and what was
    printed. *)
Record world : Type := {
  all_laws : list (hkey * law);
  file_keys : list (hkey * string);
  json_dir : list (string * result);
  printed : list string
}.

Definition empty_world : world :=
  {| all_laws := []; file_keys := []; json_dir := []; printed := [] |}.

(** ** Computations that change the world and may raise *)

Inductive outcome (A : Type) : Type :=
| Done (a : A) (w : world)
| Raised (e : exn) (w : world).
Arguments Done {A} a w.
Arguments Raised {A} e w.

Definition world_of {A : Type} (o : outcome A) : world :=
  match o with
  | Done _ w => w
  | Raised _ w => w
  end.

Definition value_of {A : Type} (o : outcome A) : option A :=
  match o with
  | Done a _ => Some a
  | Raised _ _ => None
  end.

Definition M (A : Type) : Type := world -> outcome A.

Definition ret {A : Type} (a : A) : M A := fun w => Done a w.

Definition bind {A B : Type} (m : M A) (f : A -> M B) : M B :=
  fun w =>
    match m w with
    | Done a w' => f a w'
    | Raised e w' => Raised e w'
    end.

Definition lift {A : Type} (r : res A) : M A :=
  fun w =>
    match r with
    | Ok a => Done a w
    | Raise e => Raised e w
    end.

Definition read {A : Type} (f : world -> A) : M A := fun w => Done (f w) w.

Definition update (f : world -> world) : M unit := fun w => Done tt (f w).

Declare Scope py_scope.
Delimit Scope py_scope with py.
Notation "x <- c ;; k" := (bind c (fun x => k))
  (at level 100, c at next level, right associativity) : py_scope.
Notation "c ;;; k" := (bind c (fun _ => k))
  (at level 100, right associativity) : py_scope.

Definition set_all_laws (f : list (hkey * law) -> list (hkey * law))
  : M unit :=
  update (fun w =>
    {| all_laws := f (all_laws w); file_keys := file_keys w;
       json_dir := json_dir w; printed := printed w |}).

Definition set_file_keys
    (f : list (hkey * string) -> list (hkey * string)) : M unit :=
  update (fun w =>
    {| all_laws := all_laws w; file_keys := f (file_keys w);
       json_dir := json_dir w; printed := printed w |}).

Definition write_json (name : string) (r : result) : M unit :=
  update (fun w =>
    {| all_laws := all_laws w; file_keys := file_keys w;
       json_dir := Dict.set String.eqb name r (json_dir w);
       printed := printed w |}).

Definition print (line : string) : M unit :=
  update (fun w =>
    {| all_laws := all_laws w; file_keys := file_keys w;
       json_dir := json_dir w; printed := (printed w ++ [line])%list |}).

(** [d[k]] on a module-level dictionary. *)
Definition subscript {V : Type} (d : list (hkey * V)) (k : hkey) : res V :=
  match Dict.get hkey_eqb k d with
  | Some v => Ok v
  | None => Raise KeyError
  end.

(** ** Key assignment (lines 116 to 149) *)

(** [while isinstance(key_planned, list): key_planned = key_planned[0]]. *)
Fixpoint first_of_lists (key_planned : pyval) : res pyval :=
  match key_planned with
  | VList (x :: _) => first_of_lists x
  | VList [] => Raise IndexError
  | v => Ok v
  end.

(** The year suffix of a string goes; a list is left as it is (its slice
    is no [str]); [None] and a dictionary cannot be sliced (for a
    dictionary the exception is a [KeyError] from Python 3.12 on). *)
Definition remove_year_from_key (key_planned : pyval) : res pyval :=
  match key_planned with
  | VStr s =>
      Ok (VStr (if isdigit (slice_from (-4) s)
                then strip (slice_to (-4) s) else s))
  | VList l => Ok (VList l)
  | VNone | VDict _ => Raise TypeError
  end.

(** The value the code goes on with as a key must be a string here: the
    branches above leave nothing else. *)
Definition as_str (v : pyval) : res string :=
  match v with
  | VStr s => Ok s
  | _ => Raise TypeError
  end.

(** The candidate of a [metadaten] dictionary: [jurabk], else [amtabk]. *)
Definition candidate (md : pyval) : res pyval :=
  res_bind (py_get "amtabk" md) (fun a => py_get_default "jurabk" a md).

Open Scope py_scope.

(** Lines 133 to 149: the renaming of the earlier law and the
    registration; the result is the final [key_process]. *)
Definition register_key (filename key_planned key_process : string)
  : M string :=
  fk <- read file_keys ;;
  key_process <-
    (if Dict.mem hkey_eqb (Some key_process) fk
        || Dict.mem hkey_eqb (Some key_planned) fk
     then
       let previous_output_key := key_process in
       laws <- read all_laws ;;
       previous <- lift (subscript laws (Some previous_output_key)) ;;
       corrected_previous_output_key <- lift (candidate (metadaten previous)) ;;
       (if negb (pyval_eqb corrected_previous_output_key
                   (VStr previous_output_key))
        then
          corrected <- lift (hashable corrected_previous_output_key) ;;
          set_all_laws (Dict.set hkey_eqb corrected previous) ;;;
          set_all_laws (Dict.del hkey_eqb (Some previous_output_key)) ;;;
          fk <- read file_keys ;;
          previous_file <- lift (subscript fk (Some previous_output_key)) ;;
          set_file_keys (Dict.set hkey_eqb corrected previous_file) ;;;
          set_file_keys (Dict.del hkey_eqb (Some previous_output_key))
        else ret tt) ;;;
       ret key_planned
     else ret key_process) ;;
  set_file_keys (Dict.set hkey_eqb (Some key_process) filename) ;;;
  ret key_process.

(** ** Norms and paragraphs (lines 169 to 307) *)

(** [pattern_norm = r'(§+|Art|Artikel)\.?\s*'] *)
Definition pattern_norm : regex :=
  Cat (Alt (Plus (Chr section_sign)) (Alt (Lit "Art") (Lit "Artikel")))
      (Cat (Opt (Chr ".")) (Star (Class is_space))).

(** [pattern_number = r"\b\d+[a-zA-Z]?\b"] *)
Definition pattern_number : regex :=
  Cat WordB
      (Cat (Plus (Class is_decimal))
           (Cat (Opt (Class is_ascii_letter)) WordB)).

(** [r'\W+'] and ['^\d+$'] *)
Definition pattern_nonword : regex :=
  Plus (Class (fun c => negb (is_word c))).

Definition pattern_numeric : regex :=
  Cat Bol (Cat (Plus (Class is_decimal)) Eol).

(** [whitespace_pattern = r"\n\s+\n"] *)
Definition whitespace_pattern : regex :=
  Cat (Chr newline) (Cat (Plus (Class is_space)) (Chr newline)).

Definition is_some {A : Type} (o : option A) : bool :=
  match o with Some _ => true | None => false end.

(** The tags taken out of the copy of a content block before its first
    word is read: [DL], [Revision] and the [entry] of column [col1]. *)
Definition misleading (t : tag) : bool :=
  Soup.is_named "DL" t || Soup.is_named "Revision" t
  || (Soup.is_named "entry" t
      && match Soup.attr "colname" t with
         | Some v => String.eqb v "col1"
         | None => false
         end).

Definition P_split (P : tag) : list string :=
  split (Soup.text (Soup.without misleading P)).

(** The repair of a number already taken: one more for a number, an
    underscore otherwise. *)
Definition repaired (number : string) : string :=
  if is_some (re_match pattern_numeric number)
  then str_of_N (int_of_digits number + 1)
  else number ++ "_".

(** The loop of lines 243 to 251: the first paragraph with this id has the
    number repaired, and the loop ends there. *)
Fixpoint check_duplicate (number : string) (ps : list paragraph) : string :=
  match ps with
  | [] => number
  | p :: ps' =>
      if String.eqb (paragraph_id p) number then repaired number
      else check_duplicate number ps'
  end.

(** The loop of lines 278 to 282: the first paragraph with this id takes the
    tokens and the text of the block. *)
Fixpoint add_to_previous (number : string) (p_obj : paragraph)
    (ps : list paragraph) : list paragraph :=
  match ps with
  | [] => []
  | p :: ps' =>
      if String.eqb (paragraph_id p) number then
        {| paragraph_id := paragraph_id p;
           token := token p + token p_obj;
           content := content p ++ " " ++ content p_obj |} :: ps'
      else p :: add_to_previous number p_obj ps'
  end.

(** The loops of lines 294 to 301: the norms already in the output that have
    the same [norm_id] and a paragraph with the same id, one report each. *)
Definition holds_paragraph (id : string) (n : norm) : bool :=
  existsb (fun p => String.eqb (paragraph_id p) id) (paragraphs n).

Definition hard_duplicates (output_norms : list norm) (nid id : string)
  : list norm :=
  filter (fun n => String.eqb (norm_id n) nid && holds_paragraph id n)
         output_norms.

Definition report (filename key_process nid number : string) : string :=
  filename ++ " " ++ key_process ++ " " ++ nid ++ " " ++ number.

(** The state of the loop over the content blocks of one norm. *)
Record numbering : Type := {
  p_i : N;
  p_is_numbered : bool;
  this_paragraphs : list paragraph;
  unprocessed : list string
}.

Section Parser.

(** The tokenizer ([tiktoken], encoding [cl100k_base]) and Python's [str]
    of a list or dictionary are library functions. *)
Variable num_tokens_from_string : string -> N.
Variable py_repr : pyval -> string.

Definition py_str (v : pyval) : string :=
  match v with
  | VStr s => s
  | _ => py_repr v
  end.

(** What one content block is found to be (lines 219 to 259): its number,
    whether the norm is numbered from now on, and whether the block goes on
    with the paragraph before. *)
Definition number_of (st : numbering) (P : tag) : string * bool * bool :=
  let p_i := (p_i st + 1)%N in
  match P_split P with
  | first_part :: _ =>
      match re_search pattern_number first_part with
      | Some m =>
          (check_duplicate (re_sub pattern_nonword "" m) (this_paragraphs st),
           true, false)
      | None =>
          if p_is_numbered st then (str_of_N (p_i - 1), true, true)
          else (str_of_N p_i, false, false)
      end
  | [] => (str_of_N p_i, p_is_numbered st, false)
  end.

(** The paragraph object of line 268, built after the [SUP] tags are taken
    out of the block. *)
Definition p_obj_of (number : string) (P : tag) : paragraph :=
  let P := Soup.without (Soup.is_named "SUP") P in
  {| paragraph_id := number;
     token := num_tokens_from_string (Soup.text P);
     content := re_sub whitespace_pattern
                  (String newline (String newline EmptyString))
                  (Soup.get_text_strip " " P) |}.

(** One round of the loop of line 216. *)
Definition process_P (filename key_process nid : string)
    (output_norms : list norm) (st : numbering) (P : tag) : numbering :=
  let '(number, numbered, number_missing) := number_of st P in
  let p_obj := p_obj_of number P in
  if number_missing then
    {| p_i := p_i st + 1; p_is_numbered := numbered;
       this_paragraphs := add_to_previous number p_obj (this_paragraphs st);
       unprocessed := unprocessed st |}
  else
    match hard_duplicates output_norms nid (paragraph_id p_obj) with
    | [] =>
        {| p_i := p_i st + 1; p_is_numbered := numbered;
           this_paragraphs := (this_paragraphs st ++ [p_obj])%list;
           unprocessed := unprocessed st |}
    | dups =>
        {| p_i := p_i st + 1; p_is_numbered := numbered;
           this_paragraphs := this_paragraphs st;
           unprocessed :=
             (unprocessed st
              ++ map (fun _ => report filename key_process nid number) dups)%list |}
    end.

(** The content blocks of a norm: the [P] children of the first [Content]
    of the first [text] of the first [textdaten], if there are such. *)
Definition content_blocks (law : tag) : list tag :=
  match Soup.find "textdaten" law with
  | Some td =>
      match Soup.find "text" td with
      | Some tx =>
          match Soup.find "Content" tx with
          | Some this_content => Soup.children "P" this_content
          | None => []
          end
      | None => []
      end
  | None => []
  end.

(** The paragraphs of a norm and the reports added while reading it. *)
Definition process_content (filename key_process nid : string)
    (output_norms : list norm) (unprocessed_absatze : list string)
    (law : tag) : list paragraph * list string :=
  let st :=
    fold_left (process_P filename key_process nid output_norms)
      (content_blocks law)
      {| p_i := 0; p_is_numbered := false; this_paragraphs := [];
         unprocessed := unprocessed_absatze |} in
  (this_paragraphs st, unprocessed st).

(** [x.n.text] under [try ... except AttributeError: pass]. *)
Definition text_of_first (n : string) (t : option tag) : string :=
  match t with
  | Some t =>
      match Soup.find n t with
      | Some x => Soup.text x
      | None => EmptyString
      end
  | None => EmptyString
  end.

(** Lines 182 to 195: the [norm_id] of a norm that is kept, [None] for a
    norm that is skipped.  [re.match] raises on a designation that is no
    string. *)
Definition norm_id_of (this_metadaten : pyval) : res (option string) :=
  match this_metadaten with
  | VDict _ =>
      res_bind (py_get "enbez" this_metadaten) (fun enbez =>
      if truthy enbez then
        res_bind (as_str enbez) (fun enbez =>
        if is_some (re_match pattern_norm enbez) then
          res_bind (py_get "gliederungseinheit" this_metadaten) (fun g =>
          if truthy g then
            res_bind (py_get "gliederungsbez" g) (fun bez =>
            if truthy bez then
              res_bind (as_str bez) (fun bez =>
              Ok (Some (bez ++ " " ++ enbez)))
            else Ok (Some enbez))
          else Ok (Some enbez))
        else Ok None)
      else Ok None)
  | _ => Ok None
  end.

(** One round of the loop of line 169: the norms of the output and the
    reports, after this norm. *)
Definition process_norm (filename key_process : string)
    (acc : list norm * list string) (law : tag)
  : res (list norm * list string) :=
  let '(output_norms, unprocessed_absatze) := acc in
  res_bind (convert_found (Soup.find "metadaten" law)) (fun this_metadaten =>
  res_bind (norm_id_of this_metadaten) (fun nid =>
  match nid with
  | Some nid =>
      let '(ps, unprocessed_absatze) :=
        process_content filename key_process nid output_norms
          unprocessed_absatze law in
      Ok ((output_norms
           ++ [{| norm_id := nid;
                  norm_title :=
                    text_of_first "titel" (Soup.find "metadaten" law);
                  paragraphs := ps |}])%list,
          unprocessed_absatze)
  | None => Ok (output_norms, unprocessed_absatze)
  end)).

Fixpoint process_norms (filename key_process : string)
    (acc : list norm * list string) (laws : list tag)
  : res (list norm * list string) :=
  match laws with
  | [] => Ok acc
  | law :: laws' =>
      res_bind (process_norm filename key_process acc law)
        (fun acc' => process_norms filename key_process acc' laws')
  end.

(** ** [process_file] *)

(** Lines 151 to 156: an identifier that is there loses its year. *)
Definition alt_of (k : string) (md : pyval) : res pyval :=
  res_bind (py_get k md) (fun a =>
  if truthy a then remove_year_from_key a else Ok a).

(** Lines 159 to 164. *)
Definition alt_title_of (alt_jurabk alt_amtabk : pyval)
    (key_planned : string) : string :=
  if truthy alt_jurabk && truthy alt_amtabk
     && negb (pyval_eqb alt_jurabk alt_amtabk)
  then
    if negb (pyval_eqb alt_jurabk (VStr key_planned))
    then py_str alt_jurabk else py_str alt_amtabk
  else EmptyString.

(** The name of the JSON file of a document. *)
Definition json_name (filename : string) : string :=
  before_dot filename ++ ".json".

Definition process_file (d : document) : M unit :=
  let metadaten_tag := Soup.find "metadaten" (soup d) in
  md <- lift (convert_found metadaten_tag) ;;
  last_changed <- lift (py_get "ausfertigung-datum" md) ;;
  let title := text_of_first "langue" metadaten_tag in
  key_planned <- lift (res_bind (candidate md) first_of_lists) ;;
  key_process <- lift (remove_year_from_key key_planned) ;;
  key_planned <- lift (as_str key_planned) ;;
  key_process <- lift (as_str key_process) ;;
  key_process <- register_key (filename d) key_planned key_process ;;
  alt_jurabk <- lift (alt_of "jurabk" md) ;;
  alt_amtabk <- lift (alt_of "amtabk" md) ;;
  found <- lift (process_norms (filename d) key_process ([], [])
                   (Soup.find_all "norm" (soup d))) ;;
  let output :=
    {| meta_source := filename d;
       meta_download_date := download_date d;
       meta_title := title;
       meta_last_changed := last_changed;
       meta_alt_title := alt_title_of alt_jurabk alt_amtabk key_planned;
       metadaten := md;
       norms := fst found |} in
  if negb (String.eqb key_process EmptyString) then
    set_all_laws (Dict.set hkey_eqb (Some key_process) output) ;;;
    write_json (json_name (filename d))
      {| key := key_process; output := output;
         unprocessed_absatze := snd found |}
  else
    print ("Could not find amtabk or jurabk for " ++ filename d).

(** ** [main]: the batch and the merge *)

(** The tasks of the pool, with one worker: [process_file] is run on every
    file in turn; an exception is the result of its file and does not stop
    the worker, whose dictionaries stay as the failed call left them.  The
    first exception is kept for [main]. *)
Fixpoint process_all (docs : list document) (w : world)
  : option exn * world :=
  match docs with
  | [] => (None, w)
  | d :: docs' =>
      match process_file d w with
      | Done _ w' => process_all docs' w'
      | Raised e w' => (Some e, snd (process_all docs' w'))
      end
  end.

(** The loop of line 359 over the JSON files, here in the order in which
    they were first written. *)
Fixpoint merge (files : list (string * result))
    (all_json : list (string * law))
    (all_unprocessed_absatze : list (list string))
  : list (string * law) * list (list string) :=
  match files with
  | [] => (all_json, all_unprocessed_absatze)
  | (_, data) :: files' =>
      merge files'
        (Dict.set String.eqb (key data) (output data) all_json)
        (match unprocessed_absatze data with
         | [] => all_unprocessed_absatze
         | u => (all_unprocessed_absatze ++ [u])%list
         end)
  end.

(** Lines 378 to 387: the input files of which no record is in the merged
    output. *)
Definition missing_files (xml_filenames : list string)
    (all_json : list (string * law)) : list string :=
  filter
    (fun item =>
       negb (existsb (fun kv => String.eqb (meta_source (snd kv)) item)
               all_json))
    xml_filenames.

(** The loop of line 341 raises the exception of a file when it reads
    its result; [pool.close()] and [pool.join()] let the worker finish, and
    the exception leaves [main] before anything is merged or reported. *)
Definition main (docs : list document)
  : M (list (string * law) * list (list string)) :=
  fun w =>
    match process_all docs w with
    | (Some e, w') => Raised e w'
    | (None, w') => Done (merge (json_dir w') [] []) w'
    end.

End Parser.

Close Scope py_scope.

(** ** Notions used to state the properties *)

(** What [pattern_norm] asks of the start of a designation, and the part
    of the pattern after the alternatives. *)
Definition designation_start (e : string) : bool :=
  prefix (String section_sign EmptyString) e || prefix "Art" e.

Definition norm_tail : regex :=
  Cat (Opt (Chr ".")) (Star (Class is_space)).

(** A new run of the program: the dictionaries of the module are empty
    again, the output folder is as it was left. *)
Definition reset_registry (w : world) : world :=
  {| all_laws := []; file_keys := []; json_dir := json_dir w;
     printed := printed w |}.

(** How a call of [process_file] ended for a document: the exception, or
    the record in the JSON file of the document. *)
Definition record_of (d : document) (o : outcome unit)
  : res (option result) :=
  match o with
  | Done _ w =>
      Ok (Dict.get String.eqb (json_name (filename d)) (json_dir w))
  | Raised e _ => Raise e
  end.

(** Induction on a tree, with the property known of the children. *)
Fixpoint tag_induction (Q : tag -> Prop)
    (HT : forall s, Q (Txt s))
    (HE : forall n a ks, Forall Q ks -> Q (El n a ks))
    (t : tag) : Q t :=
  match t with
  | Txt s => HT s
  | El n a ks =>
      HE n a ks
        ((fix go (l : list tag) : Forall Q l :=
            match l with
            | [] => Forall_nil Q
            | k :: l' => Forall_cons k (tag_induction Q HT HE k) (go l')
            end) ks)
  end.

(** ** Sample documents *)

Module Sample.

(** A tokenizer to run the parser with: one token per word; and a [str]
    of lists that is never reached on the samples. *)
Definition count_words (s : string) : N := N.of_nat (List.length (split s)).
Definition no_repr (_ : pyval) : string := EmptyString.

Definition leaf (n s : string) : tag := El n [] [Txt s].
Definition block (s : string) : tag := El "P" [] [Txt s].

(** A norm with a designation and content blocks. *)
Definition norm_node (enbez : string) (blocks : list tag) : tag :=
  El "norm" []
     [El "metadaten" [] [leaf "jurabk" "X"; leaf "enbez" enbez];
      El "textdaten" [] [El "text" [] [El "Content" [] blocks]]].

(** The first norm of a document carries the identifiers of the law. *)
Definition head_node (ids : list tag) : tag :=
  El "norm" []
     [El "metadaten" []
         (ids ++ [leaf "ausfertigung-datum" "1980-01-01";
                  leaf "langue" "A law"])%list].

Definition doc (f : string) (ids : list tag) (ns : list tag) : document :=
  {| filename := f; download_date := "2023-06-01";
     soup := El "[document]" [] [El "dokumente" [] (head_node ids :: ns)] |}.

Definition par (n : string) : string := String section_sign (" " ++ n).

Definition abc2020 : document := doc "a.xml" [leaf "jurabk" "ABC2020"] [].
Definition abc2021 : document := doc "b.xml" [leaf "jurabk" "ABC2021"] [].
Definition xyz_a : document := doc "a.xml" [leaf "jurabk" "XYZ"] [].
Definition xyz_b : document := doc "b.xml" [leaf "jurabk" "XYZ"] [].
Definition no_identifier : document := doc "c.xml" [] [].
Definition ustg : document := doc "u.xml" [leaf "jurabk" "UStG 1980"] [].

Definition contents_node : tag :=
  norm_node "Inhaltsverzeichnis" [block "Contents"].


Definition at_start : numbering :=
  {| p_i := 0; p_is_numbered := false; this_paragraphs := [];
     unprocessed := [] |}.

Definition two_ones : tag :=
  norm_node (par "1") [block "(1) One."; block "(1) Another."].

Definition three_ones : tag :=
  norm_node (par "1") [block "(1) a"; block "(1) b"; block "(1) c"].


(** The same designation twice, each time with one empty content block. *)
Definition twice_par3 : list tag :=
  [norm_node (par "3") [El "P" [] []]; norm_node (par "3") [El "P" [] []]].

Definition keys_of {K V : Type} (d : list (K * V)) : list K := map fst d.

(** The paragraphs and the reports of a single norm of a document whose
    output has no norm yet. *)
Definition parse_norm (law : tag) : list paragraph * list string :=
  process_content count_words "a.xml" "ABC" (par "1") [] [] law.

End Sample.

(** ** Further notions *)

(** The loop of [convert_xml_to_dict] over the children of a tag. *)
Definition children_dict_from (ks : list tag)
    (children_dict : list (string * pyval)) : list (string * pyval) :=
  fold_left
    (fun acc child =>
       match child with
       | Txt _ => acc
       | El n _ _ => add_child acc n (convert_xml_to_dict child)
       end)
    ks children_dict.

(** What a dictionary holds for a name, given the converted child tags of
    that name in document order. *)
Definition promoted (vs : list pyval) : option pyval :=
  match vs with
  | [] => None
  | [v] => Some v
  | _ => Some (VList vs)
  end.

(** The converted child tags of a name, in document order. *)
Definition named_values (n : string) (ks : list tag) : list pyval :=
  map convert_xml_to_dict (filter (Soup.is_named n) ks).

(** A string without its year suffix, as [remove_year_from_key] leaves
    it. *)
Definition without_year (s : string) : string :=
  if isdigit (slice_from (-4) s) then strip (slice_to (-4) s) else s.

(** The candidate of a metadata dictionary, written out. *)
Definition jurabk_or_amtabk (md : list (string * pyval)) : pyval :=
  match Dict.get String.eqb "jurabk" md with
  | Some v => v
  | None =>
      match Dict.get String.eqb "amtabk" md with
      | Some v => v
      | None => VNone
      end
  end.

(** The alternate title of a law with the texts [j] and [a] as [jurabk]
    and [amtabk]. *)
Definition alt_title_expected (j a : string) : string :=
  let j' := without_year j in
  let a' := without_year a in
  if String.eqb j' EmptyString || String.eqb a' EmptyString
     || String.eqb j' a'
  then EmptyString
  else if String.eqb j' j then a' else j'.

(** A content block whose first word, if it has one, holds no number. *)
Definition no_number (P : tag) : bool :=
  match P_split P with
  | [] => true
  | first_part :: _ => negb (is_some (re_search pattern_number first_part))
  end.

(** The paragraphs of blocks that are counted from [i] on. *)
Fixpoint counted_from (num_tokens_from_string : string -> N) (i : N)
    (blocks : list tag) : list paragraph :=
  match blocks with
  | [] => []
  | P :: blocks' =>
      p_obj_of num_tokens_from_string (str_of_N (i + 1)) P
      :: counted_from num_tokens_from_string (i + 1) blocks'
  end.

(** No paragraph of the list has this id. *)
Definition id_free (number : string) (ps : list paragraph) : bool :=
  forallb (fun p => negb (String.eqb (paragraph_id p) number)) ps.

(** No norm of the list has this [norm_id]. *)
Definition norm_id_free (nid : string) (ns : list norm) : bool :=
  forallb (fun n => negb (String.eqb (norm_id n) nid)) ns.

(** The repetition of [run], with the matcher of the repeated expression
    as [body] and the rounds left as [n]. *)
Definition star_loop {A : Type}
    (body : option ascii -> string ->
            (option ascii -> string -> option A) -> option A)
    (k : option ascii -> string -> option A)
  : nat -> option ascii -> string -> option A :=
  fix loop (n : nat) (prev : option ascii) (s : string) : option A :=
    match n with
    | O => k prev s
    | S n' =>
        match body prev s
                (fun prev' s' =>
                   if (String.length s' <? String.length s)%nat
                   then loop n' prev' s' else None) with
        | Some x => Some x
        | None => k prev s
        end
    end.

(** A string without its longest start of characters of a class, the
    last character of that start, and a string without the characters
    that are not of a class. *)
Fixpoint skip_while (q : ascii -> bool) (s : string) : string :=
  match s with
  | String c s' => if q c then skip_while q s' else s
  | EmptyString => EmptyString
  end.

Fixpoint last_skipped (q : ascii -> bool) (prev : option ascii)
    (s : string) : option ascii :=
  match s with
  | String c s' => if q c then last_skipped q (Some c) s' else prev
  | EmptyString => prev
  end.

Fixpoint keep (q : ascii -> bool) (s : string) : string :=
  match s with
  | String c s' => if q c then String c (keep q s') else keep q s'
  | EmptyString => EmptyString
  end.

Definition not_word (c : ascii) : bool := negb (is_word c).

(** [download_de_laws.py], line 36: the name of the zip file of a law,
    from its link. *)
Definition zip_name (link : string) : string :=
  re_sub pattern_nonword EmptyString link ++ ".zip".

(** A content block whose first word is the decimal number [ds], with
    characters that are no word characters before it (an opening bracket)
    and nothing or a rest that begins with such a character after it. *)
Definition leads_with (P : tag) (ds : string) : Prop :=
  exists pre post rest,
    P_split P = (pre ++ ds ++ post) :: rest
    /\ all_chars not_word pre = true
    /\ ds <> EmptyString
    /\ all_chars is_decimal ds = true
    /\ word_after post = false.

(** The result of the last JSON file that carries a key. *)
Fixpoint last_with_key (k : string) (files : list (string * result))
  : option result :=
  match files with
  | [] => None
  | (_, r) :: files' =>
      match last_with_key k files' with
      | Some r' => Some r'
      | None => if String.eqb (key r) k then Some r else None
      end
  end.

Definition is_empty {A : Type} (l : list A) : bool :=
  match l with [] => true | _ => false end.

(** The dictionaries of the module agree: their keys are distinct, and
    every key of the output dictionary is registered. *)
Definition registry_covers_output (w : world) : Prop :=
  NoDup (map fst (all_laws w))
  /\ NoDup (map fst (file_keys w))
  /\ incl (map fst (all_laws w)) (map fst (file_keys w)).

Definition not_newline (c : ascii) : bool := negb (Ascii.eqb newline c).

Definition two_newlines : string :=
  String newline (String newline EmptyString).

(** ** Further sample documents *)

Module More.
Import Sample.

(** A metadata block with the identifier given twice. *)
Definition two_jurabk : tag :=
  El "metadaten" []
     [leaf "jurabk" "A"; leaf "amtabk" "B"; leaf "jurabk" "C"].

(** A document whose metadata block has one child only, and a norm of
    that kind. *)
Definition only_jurabk : tag := El "metadaten" [] [leaf "jurabk" "BGB"].

Definition one_child : document :=
  {| filename := "o.xml"; download_date := "2023-06-01";
     soup := El "[document]" [] [El "norm" [] [only_jurabk]] |}.

Definition only_enbez : tag := El "metadaten" [] [leaf "enbez" (par "1")].

Definition norm_one_child : tag :=
  El "norm" []
     [only_enbez;
      El "textdaten" [] [El "text" [] [El "Content" [] [block "(1) One."]]]].

Definition md_of (jurabk : pyval) : list (string * pyval) :=
  [("jurabk", jurabk); ("ausfertigung-datum", VStr "1980-01-01");
   ("langue", VStr "A law")].

(** A law whose identifier is given twice, and one with both identifiers. *)
Definition listed : document :=
  doc "l.xml" [leaf "jurabk" "ABC2020"; leaf "jurabk" "ABC"] [].

Definition both_ids : document :=
  doc "k.xml" [leaf "jurabk" "ABC 1990"; leaf "amtabk" "XYZ"] [].

Definition both_ids_md : list (string * pyval) :=
  [("jurabk", VStr "ABC 1990"); ("amtabk", VStr "XYZ");
   ("ausfertigung-datum", VStr "1980-01-01"); ("langue", VStr "A law")].

(** The record of a sample document without norms. *)
Definition record_of_sample (f : string) (jurabk : pyval) : law :=
  {| meta_source := f; meta_download_date := "2023-06-01";
     meta_title := "A law"; meta_last_changed := VStr "1980-01-01";
     meta_alt_title := EmptyString; metadaten := VDict (md_of jurabk);
     norms := [] |}.


Definition run (d : document) (w : world) : outcome unit :=
  process_file count_words no_repr d w.

Definition after (d : document) : world := world_of (run d empty_world).

Definition after_batch (docs : list document) : world :=
  snd (process_all count_words no_repr docs empty_world).

(** A norm that is numbered, after the blocks "(1) a" and "b". *)
Definition after_two : numbering :=
  {| p_i := 2; p_is_numbered := true;
     this_paragraphs :=
       [{| paragraph_id := "1"; token := 3; content := "(1) a b" |}];
     unprocessed := [] |}.

Definition plain_norm : tag :=
  norm_node (par "2") [block "First."; block "Second."].

Definition numbered_norm : tag :=
  norm_node (par "3") [block "(1) One."; block "(2) Two."].

End More.

(** * Properties *)

(** ** The matcher on the patterns of the parser *)

Lemma run_star_total {A : Type} (r : regex) (k : option ascii -> string -> option A) :
  (forall p s, k p s <> None) ->
  forall p s, run (Star r) p s k <> None.
Proof.
  intros Hk p s. cbn.
  generalize (String.length s) at 1. intros n.
  destruct n as [|n]; [apply Hk|].
  match goal with |- context [run r p s ?kk] => destruct (run r p s kk) end.
  - discriminate.
  - apply Hk.
Qed.

Lemma run_opt_total {A : Type} (r : regex) (k : option ascii -> string -> option A) :
  (forall p s, k p s <> None) ->
  forall p s, run (Opt r) p s k <> None.
Proof.
  intros Hk p s. cbn.
  destruct (run r p s k); [discriminate | apply Hk].
Qed.

Lemma norm_tail_total (p : option ascii) (s : string) :
  run norm_tail p s accept <> None.
Proof.
  unfold norm_tail. change (run (Cat ?a ?b) p s ?k) with (run a p s (fun p' s' => run b p' s' k)).
  apply run_opt_total. intros p' s'. apply run_star_total. discriminate.
Qed.

Lemma is_some_not_none {A : Type} (o : option A) : o <> None -> is_some o = true.
Proof. destruct o; [reflexivity | congruence]. Qed.


Lemma prefix_cons (a b : ascii) (p s : string) :
  prefix (String a p) (String b s) = Ascii.eqb a b && prefix p s.
Proof.
  simpl. destruct (ascii_dec a b) as [->|Hne].
  - now rewrite Ascii.eqb_refl.
  - apply Ascii.eqb_neq in Hne. now rewrite Hne.
Qed.

Lemma run_cat {A : Type} (r1 r2 : regex) p s (k : option ascii -> string -> option A) :
  run (Cat r1 r2) p s k = run r1 p s (fun p' s' => run r2 p' s' k).
Proof. reflexivity. Qed.

Lemma run_alt {A : Type} (r1 r2 : regex) p s (k : option ascii -> string -> option A) :
  run (Alt r1 r2) p s k =
  match run r1 p s k with Some x => Some x | None => run r2 p s k end.
Proof. reflexivity. Qed.

Lemma run_class {A : Type} (q : ascii -> bool) p s (k : option ascii -> string -> option A) :
  run (Class q) p s k =
  match s with
  | String c s' => if q c then k (Some c) s' else None
  | EmptyString => None
  end.
Proof. reflexivity. Qed.


Lemma norm_match_section (p : option ascii) (s : string) :
  run pattern_norm p (String section_sign s) accept <> None.
Proof.
  unfold pattern_norm. fold norm_tail.
  rewrite run_cat, run_alt. unfold Plus. rewrite run_cat.
  unfold Chr at 1. rewrite run_class, Ascii.eqb_refl.
  match goal with |- match ?o with _ => _ end <> None => assert (H : o <> None) end.
  { apply run_star_total. intros p' s'. apply norm_tail_total. }
  destruct (run (Star _) _ _ _); [discriminate | congruence].
Qed.

Lemma norm_match_art (p : option ascii) (s : string) :
  run pattern_norm p ("Art" ++ s) accept <> None.
Proof.
  unfold pattern_norm. fold norm_tail.
  rewrite run_cat, run_alt. unfold Plus. rewrite run_cat.
  unfold Chr at 1. rewrite run_class. cbn [append].
  replace (Ascii.eqb section_sign "A") with false by reflexivity.
  rewrite run_alt.
  assert (H : run (Lit "Art") p (String "A" (String "r" (String "t" s)))
                (fun p' s' => run norm_tail p' s' accept) <> None).
  { cbn [Lit]. rewrite !run_cat. unfold Chr. rewrite !run_class.
    rewrite !Ascii.eqb_refl. cbn [run]. apply norm_tail_total. }
  destruct (run (Lit "Art") _ _ _); [discriminate | congruence].
Qed.


Lemma prefix_nil (s : string) : prefix EmptyString s = true.
Proof. now destruct s. Qed.

Lemma prefix_app_false (l m e : string) :
  prefix l e = false -> prefix (l ++ m) e = false.
Proof.
  revert e. induction l as [|a l IH]; intros e H.
  - now rewrite prefix_nil in H.
  - destruct e as [|b e]; [reflexivity|].
    cbn [append]. rewrite prefix_cons in *.
    destruct (Ascii.eqb a b); [|reflexivity].
    rewrite andb_true_l in *. now apply IH.
Qed.

Lemma run_lit_no_prefix {A : Type} (l : string) (p : option ascii)
    (e : string) (k : option ascii -> string -> option A) :
  prefix l e = false -> run (Lit l) p e k = None.
Proof.
  revert p e. induction l as [|a l IH]; intros p e H.
  - now rewrite prefix_nil in H.
  - cbn [Lit]. rewrite run_cat. unfold Chr. rewrite run_class.
    destruct e as [|b e]; [reflexivity|].
    rewrite prefix_cons in H.
    destruct (Ascii.eqb a b); [|reflexivity].
    now apply IH.
Qed.

Lemma norm_no_match (p : option ascii) (e : string) :
  designation_start e = false -> run pattern_norm p e accept = None.
Proof.
  unfold designation_start. intros H. apply orb_false_elim in H as [H1 H2].
  unfold pattern_norm. fold norm_tail.
  rewrite run_cat, run_alt. unfold Plus. rewrite run_cat.
  unfold Chr at 1. rewrite run_class.
  assert (E : match e with
              | String c s' =>
                  if Ascii.eqb section_sign c
                  then run (Star (Chr section_sign)) (Some c) s'
                         (fun p' s' => run norm_tail p' s' accept)
                  else None
              | EmptyString => None
              end = None).
  { destruct e as [|c1 e1]; [reflexivity|].
    rewrite prefix_cons, prefix_nil, andb_true_r in H1. now rewrite H1. }
  rewrite E, run_alt.
  rewrite (run_lit_no_prefix "Art") by exact H2.
  apply run_lit_no_prefix.
  exact (prefix_app_false "Art" "ikel" e H2).
Qed.

Lemma designation_start_cases (e : string) :
  designation_start e = true ->
  (exists s, e = String section_sign s) \/ (exists s, e = "Art" ++ s).
Proof.
  unfold designation_start. intros H. apply orb_true_iff in H as [H|H].
  - left. destruct e as [|c e]; [discriminate|].
    rewrite prefix_cons in H. apply andb_true_iff in H as [H _].
    apply Ascii.eqb_eq in H. subst c. now exists e.
  - right. destruct e as [|c1 [|c2 [|c3 e]]]; try discriminate.
    + rewrite prefix_cons in H. apply andb_true_iff in H as [_ H]. discriminate.
    + rewrite !prefix_cons in H.
      apply andb_true_iff in H as [_ H]. apply andb_true_iff in H as [_ H]. discriminate.
    + rewrite !prefix_cons in H.
      apply andb_true_iff in H as [Ha H]. apply andb_true_iff in H as [Hb H].
      apply andb_true_iff in H as [Hc _].
      apply Ascii.eqb_eq in Ha, Hb, Hc. subst. now exists e.
Qed.

Lemma pattern_norm_start (e : string) :
  is_some (re_match pattern_norm e) = designation_start e.
Proof.
  unfold re_match, match_here.
  destruct (designation_start e) eqn:E.
  - apply designation_start_cases in E as [[s ->]|[s ->]].
    + pose proof (norm_match_section None s) as H.
      destruct (run pattern_norm None _ accept); [reflexivity | congruence].
    + pose proof (norm_match_art None s) as H.
      destruct (run pattern_norm None _ accept); [reflexivity | congruence].
  - now rewrite norm_no_match.
Qed.

Lemma get_set_same {V : Type} (k : string) (v : V) (d : list (string * V)) :
  Dict.get String.eqb k (Dict.set String.eqb k v d) = Some v.
Proof.
  induction d as [|[k' v'] d IH]; cbn.
  - now rewrite String.eqb_refl.
  - destruct (String.eqb k k') eqn:E; cbn; now rewrite E.
Qed.

(** ** Slices *)

Lemma length_app (p y : string) :
  String.length (p ++ y) = (String.length p + String.length y)%nat.
Proof. induction p as [|c p IH]; cbn; [reflexivity | now rewrite IH]. Qed.

Lemma drop_app (p y : string) : drop (String.length p) (p ++ y) = y.
Proof. induction p as [|c p IH]; cbn; [now destruct y | exact IH]. Qed.

Lemma take_app (p y : string) : take (String.length p) (p ++ y) = p.
Proof. induction p as [|c p IH]; cbn; [now destruct y | now rewrite IH]. Qed.

Lemma slice_index_last4 (p y : string) :
  String.length y = 4%nat ->
  slice_index (-4) (String.length (p ++ y)) = String.length p.
Proof.
  intros Hy. unfold slice_index. rewrite length_app, Hy.
  replace (-4 <? 0)%Z with true by reflexivity. lia.
Qed.

Lemma slice_index_short (s : string) :
  (String.length s < 4)%nat -> slice_index (-4) (String.length s) = 0%nat.
Proof.
  intros Hs. unfold slice_index.
  replace (-4 <? 0)%Z with true by reflexivity. lia.
Qed.

Lemma remove_year_split (p y : string) :
  String.length y = 4%nat ->
  remove_year_from_key (VStr (p ++ y))
  = Ok (VStr (if all_chars isdigit_char y then strip p else p ++ y)).
Proof.
  intros Hy. unfold remove_year_from_key, slice_from, slice_to.
  rewrite (slice_index_last4 p y Hy), drop_app, take_app.
  destruct y as [|c y]; [discriminate|]. reflexivity.
Qed.

Lemma remove_year_short (s : string) :
  (String.length s < 4)%nat ->
  remove_year_from_key (VStr s)
  = Ok (VStr (if isdigit s then EmptyString else s)).
Proof.
  intros Hs. unfold remove_year_from_key, slice_from, slice_to.
  rewrite (slice_index_short s Hs). cbn [drop take].
  destruct s; reflexivity.
Qed.

(** ** Whitespace and the text of a tree *)

Lemma all_chars_app (q : ascii -> bool) (a b : string) :
  all_chars q (a ++ b) = all_chars q a && all_chars q b.
Proof.
  induction a as [|c a IH]; cbn; [reflexivity|].
  now rewrite IH, andb_assoc.
Qed.

Lemma join_empty_cons (x : string) (l : list string) :
  join EmptyString (x :: l) = x ++ join EmptyString l.
Proof.
  destruct l as [|y l]; cbn; [|reflexivity].
  induction x as [|c x IH]; cbn; [reflexivity | now rewrite <- IH].
Qed.

Lemma all_chars_join (q : ascii -> bool) (l : list string) :
  all_chars q (join EmptyString l) = forallb (all_chars q) l.
Proof.
  induction l as [|x l IH]; [reflexivity|].
  now rewrite join_empty_cons, all_chars_app, IH.
Qed.

Lemma strings_without (q : ascii -> bool) (p : tag -> bool) (t : tag) :
  forallb (all_chars q) (Soup.strings t) = true ->
  forallb (all_chars q) (Soup.strings (Soup.without p t)) = true.
Proof.
  induction t as [s|n a ks IH] using tag_induction; [trivial|].
  cbn [Soup.strings Soup.without].
  induction IH as [|k ks Hk _ IHks]; [trivial|].
  rewrite forallb_app. intros H. apply andb_true_iff in H as [H1 H2].
  destruct (p k).
  - now apply IHks.
  - rewrite forallb_app. apply andb_true_iff. split; [now apply Hk | now apply IHks].
Qed.

Lemma split_whitespace (s : string) :
  all_chars is_space s = true -> split s = [].
Proof.
  unfold split. induction s as [|c s IH]; [reflexivity|].
  cbn. intros H. apply andb_true_iff in H as [Hc Hs].
  rewrite Hc. now apply IH.
Qed.

Lemma P_split_whitespace (P : tag) :
  all_chars is_space (Soup.text P) = true -> P_split P = [].
Proof.
  unfold P_split, Soup.text. rewrite !all_chars_join. intros H.
  apply split_whitespace. rewrite all_chars_join.
  now apply strings_without.
Qed.

Section ParserProperties.

Variable num_tokens_from_string : string -> N.
Variable py_repr : pyval -> string.


(** Lines 182 to 195 by the value of [this_metadaten.get('enbez')]. *)
Lemma norm_id_of_no_dict (md : pyval) :
  (forall d, md <> VDict d) -> norm_id_of md = Ok None.
Proof.
  destruct md as [|s|l|d]; try reflexivity.
  intros H. now destruct (H d).
Qed.

Lemma norm_id_of_falsy (md v : pyval) :
  py_get "enbez" md = Ok v -> truthy v = false -> norm_id_of md = Ok None.
Proof.
  destruct md as [|s|l|d]; try discriminate.
  intros Hv Ht. unfold norm_id_of. rewrite Hv. cbn [res_bind].
  now rewrite Ht.
Qed.

Lemma norm_id_of_no_text (md v : pyval) :
  py_get "enbez" md = Ok v -> truthy v = true -> (forall e, v <> VStr e) ->
  norm_id_of md = Raise TypeError.
Proof.
  destruct md as [|s|l|d]; try discriminate.
  intros Hv Ht Hn. unfold norm_id_of. rewrite Hv. cbn [res_bind].
  rewrite Ht. destruct v as [|e|l|d']; try reflexivity.
  now destruct (Hn e).
Qed.

Lemma norm_id_of_skipped (md : pyval) (e : string) :
  py_get "enbez" md = Ok (VStr e) ->
  designation_start e = false ->
  norm_id_of md = Ok None.
Proof.
  destruct md as [|s|l|d]; try discriminate.
  intros He Hs. unfold norm_id_of. rewrite He.
  cbn [res_bind truthy]. destruct (negb (e =? "")%string); [|reflexivity].
  cbn [as_str res_bind]. now rewrite pattern_norm_start, Hs.
Qed.

(** After a designation that matches, what is left is lines 194 and 195. *)
Lemma norm_id_of_matching (md : pyval) (e : string) :
  py_get "enbez" md = Ok (VStr e) ->
  designation_start e = true ->
  norm_id_of md
  = res_bind (py_get "gliederungseinheit" md) (fun g =>
      if truthy g then
        res_bind (py_get "gliederungsbez" g) (fun bez =>
          if truthy bez then
            res_bind (as_str bez) (fun bez => Ok (Some (bez ++ " " ++ e)))
          else Ok (Some e))
      else Ok (Some e)).
Proof.
  destruct md as [|s|l|d]; try discriminate.
  intros He Hs. unfold norm_id_of. rewrite He.
  cbn [res_bind truthy].
  destruct e as [|c e]; [discriminate|].
  cbn [String.eqb negb as_str res_bind]. now rewrite pattern_norm_start, Hs.
Qed.

Lemma norm_id_of_some (md : pyval) (nid : string) :
  norm_id_of md = Ok (Some nid) ->
  exists e, py_get "enbez" md = Ok (VStr e) /\ designation_start e = true.
Proof.
  destruct md as [|s|l|d]; try discriminate.
  unfold norm_id_of.
  destruct (py_get "enbez" (VDict d)) as [v|x] eqn:E; [|discriminate].
  cbn [res_bind]. destruct (truthy v); [|discriminate].
  destruct v as [|e|l|d']; try discriminate.
  cbn [as_str res_bind]. rewrite pattern_norm_start.
  destruct (designation_start e) eqn:S; [|discriminate].
  intros _. now exists e.
Qed.

(** One round of the loop by the result of lines 182 to 195. *)
Lemma process_norm_by_id (filename key_process : string)
    (output_norms : list norm) (reports : list string) (law : tag)
    (md : pyval) :
  convert_found (Soup.find "metadaten" law) = Ok md ->
  process_norm num_tokens_from_string filename key_process
    (output_norms, reports) law
  = match norm_id_of md with
    | Ok (Some nid) =>
        Ok ((output_norms
             ++ [{| norm_id := nid;
                    norm_title :=
                      text_of_first "titel" (Soup.find "metadaten" law);
                    paragraphs :=
                      fst (process_content num_tokens_from_string filename
                             key_process nid output_norms reports law) |}])%list,
            snd (process_content num_tokens_from_string filename
                   key_process nid output_norms reports law))
    | Ok None => Ok (output_norms, reports)
    | Raise x => Raise x
    end.
Proof.
  intros Hmd. unfold process_norm. rewrite Hmd. cbn [res_bind].
  destruct (norm_id_of md) as [[nid|]|x]; reflexivity.
Qed.

Lemma app_one_longer {A : Type} (l : list A) (x : A) : l <> (l ++ [x])%list.
Proof.
  intros H. apply (f_equal (@List.length A)) in H.
  rewrite List.length_app in H. cbn [List.length] in H. lia.
Qed.

(** C8.  Which norm nodes become a Norm of the output (lines 180 to 195),
    for a node whose metadata convert to [md].  [pattern_norm] matches a
    text exactly when the text begins with the section sign or with "Art",
    so "Inhaltsverzeichnis" does not match.  A round of the loop that ends
    without an exception either leaves the output and the reports as they
    were or appends one Norm, and it appends one only if [md] is a
    dictionary whose designation [enbez] is a text that matches.  No Norm
    is appended when [md] is no dictionary (the metadata were read as a
    string), when the designation is absent or empty, or when it is a text
    that does not match; a designation that is a list or a dictionary with
    entries raises [TypeError].  When the designation is a text that
    matches, one Norm is appended, with the designation as its [norm_id],
    if the grouping label [gliederungseinheit] is absent or empty or its
    [gliederungsbez] is absent or empty, and with the [gliederungsbez], a
    space and the designation as its [norm_id] if the [gliederungsbez] is
    a text with characters; a grouping label with content that is no
    dictionary raises [AttributeError], and a [gliederungsbez] with content
    that is no text raises [TypeError]. *)
Theorem norm_emitted_rule
    (filename key_process : string) (output_norms : list norm)
    (reports : list string) (law : tag) (md : pyval)
    (out : res (list norm * list string)) :
  convert_found (Soup.find "metadaten" law) = Ok md ->
  process_norm num_tokens_from_string filename key_process
    (output_norms, reports) law = out ->
  ((forall e, is_some (re_match pattern_norm e) = designation_start e)
   /\ designation_start "Inhaltsverzeichnis" = false)
  /\ (forall acc,
        out = Ok acc ->
        acc = (output_norms, reports)
        \/ exists n e,
             fst acc = (output_norms ++ [n])%list
             /\ fst acc <> output_norms
             /\ py_get "enbez" md = Ok (VStr e)
             /\ designation_start e = true)
  /\ ((forall d, md <> VDict d) -> out = Ok (output_norms, reports))
  /\ (forall v,
        py_get "enbez" md = Ok v ->
        (truthy v = false -> out = Ok (output_norms, reports))
        /\ (truthy v = true -> (forall e, v <> VStr e) ->
            out = Raise TypeError)
        /\ (forall e,
              v = VStr e -> designation_start e = false ->
              out = Ok (output_norms, reports))
        /\ (forall e g,
              v = VStr e -> designation_start e = true ->
              py_get "gliederungseinheit" md = Ok g ->
              (truthy g = false ->
               exists n,
                 out = Ok ((output_norms ++ [n])%list,
                           snd (process_content num_tokens_from_string
                                  filename key_process e output_norms
                                  reports law))
                 /\ norm_id n = e)
              /\ (truthy g = true -> (forall gd, g <> VDict gd) ->
                  out = Raise AttributeError)
              /\ (forall bez,
                    truthy g = true ->
                    py_get "gliederungsbez" g = Ok bez ->
                    (truthy bez = false ->
                     exists n,
                       out = Ok ((output_norms ++ [n])%list,
                                 snd (process_content num_tokens_from_string
                                        filename key_process e output_norms
                                        reports law))
                       /\ norm_id n = e)
                    /\ (forall b,
                          bez = VStr b -> truthy bez = true ->
                          exists n,
                            out = Ok ((output_norms ++ [n])%list,
                                      snd (process_content
                                             num_tokens_from_string filename
                                             key_process (b ++ " " ++ e)
                                             output_norms reports law))
                            /\ norm_id n = b ++ " " ++ e)
                    /\ (truthy bez = true -> (forall b, bez <> VStr b) ->
                        out = Raise TypeError)))).
Proof.
  intros Hmd <-.
  rewrite (process_norm_by_id filename key_process output_norms reports law
             md Hmd).
  split; [split; [apply pattern_norm_start | reflexivity]|].
  split; [|split].
  - intros acc.
    destruct (norm_id_of md) as [[nid|]|x] eqn:E; [| |discriminate].
    + intros [= <-]. right. cbn [fst].
      destruct (norm_id_of_some md nid E) as [e [He Hs]].
      eexists. exists e. split; [reflexivity|].
      split; [|now split].
      intros H. exact (app_one_longer _ _ (eq_sym H)).
    + intros [= <-]. now left.
  - intros H. now rewrite (norm_id_of_no_dict md H).
  - intros v Hv. split; [|split; [|split]].
    + intros Ht. now rewrite (norm_id_of_falsy md v Hv Ht).
    + intros Ht Hn. now rewrite (norm_id_of_no_text md v Hv Ht Hn).
    + intros e -> Hs. now rewrite (norm_id_of_skipped md e Hv Hs).
    + intros e g -> Hs Hg.
      rewrite (norm_id_of_matching md e Hv Hs), Hg. cbn [res_bind].
      split; [|split].
      * intros Ht. rewrite Ht. eexists. split; reflexivity.
      * intros Ht Hn. rewrite Ht.
        destruct g as [|s|l|gd]; try reflexivity.
        now destruct (Hn gd).
      * intros bez Ht Hb. rewrite Ht, Hb. cbn [res_bind].
        split; [|split].
        -- intros Hf. rewrite Hf. eexists. split; reflexivity.
        -- intros b -> Hf. rewrite Hf. cbn [as_str res_bind].
           eexists. split; reflexivity.
        -- intros Hf Hn. rewrite Hf.
           destruct bez as [|b|l|bd]; try reflexivity.
           now destruct (Hn b).
Qed.

Lemma process_file_fresh (d : document) :
  (exists e fk, forall al jd pr,
      process_file num_tokens_from_string py_repr d
        {| all_laws := al; file_keys := []; json_dir := jd; printed := pr |}
      = Raised e {| all_laws := al; file_keys := fk; json_dir := jd;
                    printed := pr |})
  \/ (exists r, forall al jd pr,
      process_file num_tokens_from_string py_repr d
        {| all_laws := al; file_keys := []; json_dir := jd; printed := pr |}
      = Done tt
          {| all_laws := Dict.set hkey_eqb (Some (key r)) (output r) al;
             file_keys := [(Some (key r), filename d)];
             json_dir := Dict.set String.eqb (json_name (filename d)) r jd;
             printed := pr |})
  \/ (exists line, forall al jd pr,
      process_file num_tokens_from_string py_repr d
        {| all_laws := al; file_keys := []; json_dir := jd; printed := pr |}
      = Done tt
          {| all_laws := al; file_keys := [(Some EmptyString, filename d)];
             json_dir := jd; printed := (pr ++ [line])%list |}).
Proof.
  unfold process_file, bind, lift.
  destruct (convert_found (Soup.find "metadaten" (soup d))) as [md|x];
    [|left; exists x, []; reflexivity].
  destruct (py_get "ausfertigung-datum" md) as [lc|x];
    [|left; exists x, []; reflexivity].
  destruct (res_bind (candidate md) first_of_lists) as [kp|x];
    [|left; exists x, []; reflexivity].
  destruct (remove_year_from_key kp) as [kpr|x];
    [|left; exists x, []; reflexivity].
  destruct (as_str kp) as [kps|x]; [|left; exists x, []; reflexivity].
  destruct (as_str kpr) as [kprs|x]; [|left; exists x, []; reflexivity].
  cbn.
  destruct (alt_of "jurabk" md) as [aj|x];
    [|left; exists x; eexists; reflexivity].
  destruct (alt_of "amtabk" md) as [aa|x];
    [|left; exists x; eexists; reflexivity].
  destruct (process_norms _ _ _ _ _) as [found|x];
    [|left; exists x; eexists; reflexivity].
  destruct (String.eqb kprs EmptyString) eqn:E.
  - right; right. apply String.eqb_eq in E. subst kprs.
    eexists. intros. reflexivity.
  - right; left.
    eexists {| key := kprs; output := _; unprocessed_absatze := _ |}.
    intros. cbn. reflexivity.
Qed.

(** C9.  Run twice on the same document, each time with the registry
    emptied first, the parser ends the same way: with the same exception,
    or with the same record in the JSON file of the document, whatever the
    world held before. *)
Theorem parser_idempotent (d : document) (w : world) :
  let first := process_file num_tokens_from_string py_repr d (reset_registry w) in
  let second :=
    process_file num_tokens_from_string py_repr d
      (reset_registry (world_of first)) in
  record_of d second = record_of d first.
Proof.
  destruct w as [al jd0 jd pr]. unfold reset_registry. cbn [json_dir printed].
  destruct (process_file_fresh d) as [(e & fk & H)|[(r & H)|(line & H)]];
    cbv zeta; rewrite H; cbn [world_of json_dir printed];
    rewrite H; cbn [record_of json_dir]; rewrite ?get_set_same; reflexivity.
Qed.

(** C7.  The candidate key of a document is its [jurabk] if the metadata
    have one and its [amtabk] otherwise, a list standing for its first
    element; the key registered for the document in an empty registry is
    the candidate without its last four characters, trimmed, when these
    are all digits (the empty string for a candidate of exactly four
    digits), and the candidate itself when they are not; the last four
    characters of a shorter candidate are the whole candidate. *)
Theorem candidate_key_and_year_stripping
    (d : document) (md : list (string * pyval)) (key_planned : string)
    (w : world) :
  convert_found (Soup.find "metadaten" (soup d)) = Ok (VDict md) ->
  first_of_lists
    (match Dict.get String.eqb "jurabk" md with
     | Some v => v
     | None =>
         match Dict.get String.eqb "amtabk" md with
         | Some v => v
         | None => VNone
         end
     end) = Ok (VStr key_planned) ->
  file_keys w = [] ->
  (forall v l, first_of_lists (VList (v :: l)) = first_of_lists v)
  /\ exists key_process,
      file_keys
        (world_of (process_file num_tokens_from_string py_repr d w))
      = [(Some key_process, filename d)]
      /\ (forall p y,
            key_planned = p ++ y -> String.length y = 4%nat ->
            key_process
            = if all_chars isdigit_char y then strip p else key_planned)
      /\ (String.length key_planned = 4%nat ->
          all_chars isdigit_char key_planned = true ->
          key_process = EmptyString)
      /\ ((String.length key_planned < 4)%nat ->
          key_process
          = if isdigit key_planned then EmptyString else key_planned).
Proof.
  intros Hmd Hc Hw. split; [reflexivity|].
  destruct (remove_year_from_key (VStr key_planned)) as [k|x] eqn:Ek;
    [|discriminate].
  assert (Hk : exists key_process, k = VStr key_process).
  { cbn in Ek. injection Ek as <-. eauto. }
  destruct Hk as [key_process ->].
  exists key_process. split; [|split; [|split]].
  - destruct w as [al fk jd pr]. cbn in Hw. subst fk.
    unfold process_file, bind, lift. rewrite Hmd.
    cbn [py_get py_get_default candidate res_bind].
    rewrite Hc, Ek. cbn -[alt_of process_norms].
    destruct (alt_of "jurabk" (VDict md)); [|reflexivity].
    destruct (alt_of "amtabk" (VDict md)); [|reflexivity].
    destruct (process_norms _ _ _ _ _); [|reflexivity].
    destruct (String.eqb key_process EmptyString); reflexivity.
  - intros p y -> Hy. rewrite (remove_year_split p y Hy) in Ek.
    now injection Ek as <-.
  - intros H4 Hd.
    pose proof (remove_year_split EmptyString key_planned H4) as E.
    cbn [append] in E. rewrite E, Hd in Ek. now injection Ek as <-.
  - intros Hs. rewrite (remove_year_short key_planned Hs) in Ek.
    now injection Ek as <-.
Qed.

(** C10 as amended.  A content block whose text is empty or only
    whitespace is never taken as the continuation of a paragraph and never
    has its number repaired: its number is the counter [p_i] and the
    numbering of the norm stays as it was.  It becomes a new paragraph,
    after those already there, unless an earlier norm of the document with
    the same [norm_id] holds a paragraph with that id; then it is reported
    and no paragraph is added. *)
Theorem empty_block_is_positional
    (filename key_process nid : string) (output_norms : list norm)
    (st : numbering) (P : tag) :
  all_chars is_space (Soup.text P) = true ->
  let number := str_of_N (p_i st + 1) in
  let st' :=
    process_P num_tokens_from_string filename key_process nid output_norms
      st P in
  p_i st' = (p_i st + 1)%N
  /\ p_is_numbered st' = p_is_numbered st
  /\ (hard_duplicates output_norms nid number = [] ->
      this_paragraphs st'
      = (this_paragraphs st ++ [p_obj_of num_tokens_from_string number P])%list
      /\ unprocessed st' = unprocessed st)
  /\ (hard_duplicates output_norms nid number <> [] ->
      this_paragraphs st' = this_paragraphs st
      /\ unprocessed st'
         = (unprocessed st
            ++ map (fun _ => report filename key_process nid number)
                 (hard_duplicates output_norms nid number))%list).
Proof.
  intros Hws number st'. subst st'.
  unfold process_P, number_of. rewrite (P_split_whitespace P Hws).
  fold number. cbn [paragraph_id p_obj_of].
  destruct (hard_duplicates output_norms nid number) as [|n dups] eqn:E;
    cbn [p_i p_is_numbered this_paragraphs unprocessed].
  - repeat split; try reflexivity; congruence.
  - repeat split; try reflexivity; discriminate.
Qed.

Lemma no_hard_duplicates (output_norms : list norm) (nid id : string) :
  forallb (fun n => negb (String.eqb (norm_id n) nid)) output_norms = true ->
  hard_duplicates output_norms nid id = [].
Proof.
  unfold hard_duplicates. induction output_norms as [|n ns IH]; [reflexivity|].
  cbn. intros H. apply andb_true_iff in H as [Hn Hns].
  apply negb_true_iff in Hn. rewrite Hn. cbn. now apply IH.
Qed.

(** C3 as amended.  In a norm whose [norm_id] no earlier norm of the
    document has, two content blocks that both begin with "(1)" give two
    paragraphs, with ids "1" and "2" (the number of the second is
    repaired), and nothing is reported. *)
Theorem two_blocks_numbered_one
    (filename key_process nid : string) (output_norms : list norm)
    (reports : list string) (law P1 P2 : tag) (rest1 rest2 : list string) :
  content_blocks law = [P1; P2] ->
  P_split P1 = "(1)" :: rest1 ->
  P_split P2 = "(1)" :: rest2 ->
  forallb (fun n => negb (String.eqb (norm_id n) nid)) output_norms = true ->
  process_content num_tokens_from_string filename key_process nid
    output_norms reports law
  = ([p_obj_of num_tokens_from_string "1" P1;
      p_obj_of num_tokens_from_string "2" P2], reports).
Proof.
  intros Hb H1 H2 Hn. unfold process_content. rewrite Hb.
  cbn [fold_left]. unfold process_P, number_of.
  rewrite H1.
  replace (re_search pattern_number "(1)") with (Some "1") by reflexivity.
  replace (re_sub pattern_nonword "" "1") with "1" by reflexivity.
  cbn [this_paragraphs check_duplicate p_obj_of paragraph_id].
  rewrite (no_hard_duplicates output_norms nid "1" Hn).
  cbn [this_paragraphs app p_i p_is_numbered unprocessed].
  rewrite H2.
  replace (re_search pattern_number "(1)") with (Some "1") by reflexivity.
  replace (re_sub pattern_nonword "" "1") with "1" by reflexivity.
  cbn [check_duplicate paragraph_id String.eqb Ascii.eqb Bool.eqb].
  change (paragraph_id (p_obj_of num_tokens_from_string "1" P1)) with "1".
  replace (String.eqb "1" "1") with true by reflexivity.
  replace (repaired "1") with "2" by reflexivity.
  rewrite (no_hard_duplicates output_norms nid "2" Hn).
  reflexivity.
Qed.




(** ** The key registry over a batch *)

Lemma process_file_without_identifier (d : document)
    (md : list (string * pyval)) (w : world) :
  convert_found (Soup.find "metadaten" (soup d)) = Ok (VDict md) ->
  Dict.get String.eqb "jurabk" md = None ->
  Dict.get String.eqb "amtabk" md = None ->
  process_file num_tokens_from_string py_repr d w = Raised TypeError w.
Proof.
  intros Hmd Hj Ha. unfold process_file, bind, lift. rewrite Hmd.
  cbn [py_get py_get_default candidate res_bind]. now rewrite Hj, Ha.
Qed.

(** C6.  The document [Sample.no_identifier] has neither [jurabk] nor
    [amtabk]: [process_file] raises [TypeError] on it and leaves the world
    as it was, so that nothing is registered or written, and nothing is
    printed about the file; [main] ends with that exception, whatever the
    other documents of the batch are, and merges and reports nothing. *)
Theorem no_identifier_aborts_batch (rest : list document) (w : world) :
  process_file num_tokens_from_string py_repr Sample.no_identifier w
  = Raised TypeError w
  /\ main num_tokens_from_string py_repr (Sample.no_identifier :: rest) w
     = Raised TypeError
         (snd (process_all num_tokens_from_string py_repr rest w)).
Proof.
  assert (H : process_file num_tokens_from_string py_repr
                Sample.no_identifier w = Raised TypeError w).
  { now apply (process_file_without_identifier Sample.no_identifier
                 [("ausfertigung-datum", VStr "1980-01-01");
                  ("langue", VStr "A law")]). }
  split; [exact H|].
  unfold main. cbn [process_all]. now rewrite H.
Qed.

(** C1.  Two documents with the same identifier "XYZ": the second takes
    the key of the first.  After the batch the registry and the output
    dictionary hold the second document only, and both JSON files carry
    the key "XYZ". *)
Theorem equal_identifiers_share_a_key :
  let w :=
    snd (process_all num_tokens_from_string py_repr
           [Sample.xyz_a; Sample.xyz_b] empty_world) in
  file_keys w = [(Some "XYZ", "b.xml")]
  /\ map (fun kv => (fst kv, meta_source (snd kv))) (all_laws w)
     = [(Some "XYZ", "b.xml")]
  /\ map (fun fr => (fst fr, key (snd fr))) (json_dir w)
     = [("a.json", "XYZ"); ("b.json", "XYZ")].
Proof. vm_compute. repeat split. Qed.

(** C2.  The documents "ABC2020" and "ABC2021": in the dictionaries of the
    process the earlier one is renamed, but its JSON file, written before,
    keeps the key "ABC", and the merged output is built from the files: it
    has the keys "ABC" and "ABC2021", or "ABC" and "ABC2020" when the
    documents come in the other order. *)
Theorem rename_does_not_reach_the_output :
  let run docs := main num_tokens_from_string py_repr docs empty_world in
  let merged_keys docs :=
    option_map (fun r => Sample.keys_of (fst r)) (value_of (run docs)) in
  merged_keys [Sample.abc2020; Sample.abc2021] = Some ["ABC"; "ABC2021"]
  /\ merged_keys [Sample.abc2021; Sample.abc2020] = Some ["ABC"; "ABC2020"]
  /\ file_keys (world_of (run [Sample.abc2020; Sample.abc2021]))
     = [(Some "ABC2020", "a.xml"); (Some "ABC2021", "b.xml")]
  /\ Sample.keys_of
       (all_laws (world_of (run [Sample.abc2020; Sample.abc2021])))
     = [Some "ABC2020"; Some "ABC2021"].
Proof. vm_compute. repeat split. Qed.

(** C4.  Three content blocks that begin with "(1)": the second is given
    the id "2", and so is the third, since the repaired number is not
    checked again; the ids of the norm are "1", "2", "2". *)
Theorem three_blocks_numbered_one (filename key_process nid : string) :
  let ids :=
    map paragraph_id
      (fst (process_content num_tokens_from_string filename key_process nid
              [] [] Sample.three_ones)) in
  ids = ["1"; "2"; "2"] /\ ~ NoDup ids.
Proof.
  vm_compute. split; [reflexivity|].
  intros H. inversion H as [|x l1 Hin1 H1]; subst.
  inversion H1 as [|y l2 Hin2 H2]; subst.
  apply Hin2. now left.
Qed.

End ParserProperties.

(** ** The sample documents *)

Import Sample.

(** Without the registry emptied in between, the second run on a document
    finds its own key registered and keeps the year. *)
Lemma rerun_without_reset :
  let first := process_file count_words no_repr ustg empty_world in
  let second := process_file count_words no_repr ustg (world_of first) in
  option_map key (Dict.get String.eqb "u.json" (json_dir (world_of first)))
  = Some "UStG"
  /\ option_map key
       (Dict.get String.eqb "u.json" (json_dir (world_of second)))
     = Some "UStG 1980".
Proof. vm_compute. split; reflexivity. Qed.

(** The norm [two_ones] gives the ids "1" and "2" and no report: not one
    paragraph and one report. *)
Lemma two_ones_both_kept :
  map paragraph_id (fst (parse_norm two_ones)) = ["1"; "2"]
  /\ snd (parse_norm two_ones) = []
  /\ ~ (List.length (fst (parse_norm two_ones)) = 1%nat
        /\ List.length (snd (parse_norm two_ones)) = 1%nat).
Proof.
  vm_compute. repeat split. intros [H _]. discriminate.
Qed.


(** The empty block of the second norm of [twice_par3] is reported and
    gives no paragraph. *)
Lemma empty_block_diverted :
  match process_norms count_words "a.xml" "ABC" ([], []) twice_par3 with
  | Ok (ns, reports) =>
      map (fun n => map paragraph_id (paragraphs n)) ns = [["1"]; []]
      /\ List.length reports = 1%nat
  | Raise _ => False
  end.
Proof. vm_compute. split; reflexivity. Qed.

(** The designation of [More.norm_one_child] is the text of its [enbez]
    element and matches [pattern_norm], but its metadata, which have that
    one child, convert to a string: the node gives no Norm. *)
Lemma matching_designation_not_emitted :
  option_map Soup.text (Soup.find "enbez" More.norm_one_child)
  = Some (par "1")
  /\ is_some (re_match pattern_norm (par "1")) = true
  /\ convert_found (Soup.find "metadaten" More.norm_one_child)
     = Ok (VStr (par "1"))
  /\ process_norm count_words "a.xml" "ABC" ([], []) More.norm_one_child
     = Ok ([], [])
  /\ ~ (exists n reports,
          process_norm count_words "a.xml" "ABC" ([], [])
            More.norm_one_child
          = Ok ([n], reports)).
Proof.
  vm_compute. repeat split. intros [n [reports H]]. discriminate.
Qed.

(** ** The theorems at the sample documents *)

Lemma norm_emitted_rule_witness :
  convert_found (Soup.find "metadaten" two_ones)
  = Ok (VDict [("jurabk", VStr "X"); ("enbez", VStr (par "1"))])
  /\ py_get "enbez" (VDict [("jurabk", VStr "X"); ("enbez", VStr (par "1"))])
     = Ok (VStr (par "1"))
  /\ designation_start (par "1") = true
  /\ exists n,
       process_norm count_words "a.xml" "ABC" ([], []) two_ones
       = Ok ([n],
             snd (process_content count_words "a.xml" "ABC" (par "1") [] []
                    two_ones))
       /\ norm_id n = par "1".
Proof.
  split; [reflexivity|]. split; [reflexivity|]. split; [reflexivity|].
  destruct (norm_emitted_rule count_words "a.xml" "ABC" [] [] two_ones
              (VDict [("jurabk", VStr "X"); ("enbez", VStr (par "1"))])
              (process_norm count_words "a.xml" "ABC" ([], []) two_ones)
              eq_refl eq_refl)
    as [_ [_ [_ H]]].
  destruct (H (VStr (par "1")) eq_refl) as [_ [_ [_ Hm]]].
  exact (proj1 (Hm (par "1") VNone eq_refl eq_refl eq_refl) eq_refl).
Defined.

Lemma candidate_key_and_year_stripping_witness :
  (convert_found (Soup.find "metadaten" (soup ustg))
   = Ok (VDict [("jurabk", VStr "UStG 1980");
                ("ausfertigung-datum", VStr "1980-01-01");
                ("langue", VStr "A law")])
   /\ first_of_lists (VStr "UStG 1980") = Ok (VStr "UStG 1980")
   /\ file_keys empty_world = [])
  /\ file_keys (world_of (process_file count_words no_repr ustg empty_world))
     = [(Some "UStG", "u.xml")].
Proof.
  split; [repeat split|].
  destruct (candidate_key_and_year_stripping count_words no_repr ustg
              [("jurabk", VStr "UStG 1980");
               ("ausfertigung-datum", VStr "1980-01-01");
               ("langue", VStr "A law")]
              "UStG 1980" empty_world eq_refl eq_refl eq_refl)
    as [_ [k [Hk [Hsplit _]]]].
  rewrite Hk, (Hsplit "UStG " "1980" eq_refl eq_refl). reflexivity.
Defined.

Lemma two_blocks_numbered_one_witness :
  (content_blocks two_ones = [block "(1) One."; block "(1) Another."]
   /\ P_split (block "(1) One.") = ["(1)"; "One."]
   /\ P_split (block "(1) Another.") = ["(1)"; "Another."]
   /\ forallb (fun n => negb (String.eqb (norm_id n) (par "1"))) [] = true)
  /\ process_content count_words "a.xml" "ABC" (par "1") [] [] two_ones
     = ([p_obj_of count_words "1" (block "(1) One.");
         p_obj_of count_words "2" (block "(1) Another.")], []).
Proof.
  split; [repeat split|].
  exact (two_blocks_numbered_one count_words "a.xml" "ABC" (par "1") [] []
           two_ones (block "(1) One.") (block "(1) Another.")
           ["One."] ["Another."] eq_refl eq_refl eq_refl eq_refl).
Defined.


Lemma empty_block_is_positional_witness :
  all_chars is_space (Soup.text (El "P" [] [])) = true
  /\ this_paragraphs
       (process_P count_words "a.xml" "ABC" (par "1") [] at_start
          (El "P" [] []))
     = [p_obj_of count_words "1" (El "P" [] [])].
Proof.
  split; [reflexivity|].
  destruct (empty_block_is_positional count_words "a.xml" "ABC" (par "1") []
              at_start (El "P" [] []) eq_refl)
    as (_ & _ & H & _).
  exact (proj1 (H eq_refl)).
Defined.

(** * Further properties *)

(** ** Dictionaries *)

Section DictFacts.
Context {K V : Type} (eqb : K -> K -> bool).
Hypothesis eqb_eq : forall a b, eqb a b = true <-> a = b.

Lemma eqb_refl' (a : K) : eqb a a = true.
Proof. now apply eqb_eq. Qed.

Lemma eqb_neq' (a b : K) : a <> b -> eqb a b = false.
Proof.
  intros H. destruct (eqb a b) eqn:E; [|reflexivity].
  apply eqb_eq in E. contradiction.
Qed.

Lemma dict_get_set_eq (k : K) (v : V) (d : list (K * V)) :
  Dict.get eqb k (Dict.set eqb k v d) = Some v.
Proof.
  induction d as [|[k' v'] d IH]; cbn.
  - now rewrite eqb_refl'.
  - destruct (eqb k k') eqn:E; cbn; now rewrite E.
Qed.

Lemma dict_get_set_neq (k k' : K) (v : V) (d : list (K * V)) :
  k <> k' -> Dict.get eqb k (Dict.set eqb k' v d) = Dict.get eqb k d.
Proof.
  intros Hne. induction d as [|[k2 v2] d IH]; cbn.
  - now rewrite (eqb_neq' k k' Hne).
  - destruct (eqb k' k2) eqn:E; cbn.
    + apply eqb_eq in E. subst k2. now rewrite (eqb_neq' k k' Hne).
    + now rewrite IH.
Qed.

Lemma dict_set_absent (k : K) (v : V) (d : list (K * V)) :
  Dict.get eqb k d = None -> Dict.set eqb k v d = (d ++ [(k, v)])%list.
Proof.
  induction d as [|[k' v'] d IH]; cbn; [reflexivity|].
  destruct (eqb k k'); [discriminate|]. intros H. now rewrite IH.
Qed.

Lemma dict_get_in (k : K) (v : V) (d : list (K * V)) :
  Dict.get eqb k d = Some v -> In k (map fst d).
Proof.
  induction d as [|[k' v'] d IH]; cbn; [discriminate|].
  destruct (eqb k k') eqn:E.
  - apply eqb_eq in E. now left.
  - intros H. right. now apply IH.
Qed.

Lemma dict_get_none (k : K) (d : list (K * V)) :
  Dict.get eqb k d = None <-> ~ In k (map fst d).
Proof.
  induction d as [|[k' v'] d IH]; cbn.
  - tauto.
  - destruct (eqb k k') eqn:E.
    + apply eqb_eq in E. split; [discriminate|]. intros H. exfalso. apply H. now left.
    + rewrite IH. split.
      * intros H [H1|H1]; [|tauto]. subst k'. now rewrite eqb_refl' in E.
      * tauto.
Qed.

Lemma dict_set_keys (k : K) (v : V) (d : list (K * V)) :
  map fst (Dict.set eqb k v d)
  = match Dict.get eqb k d with
    | Some _ => map fst d
    | None => (map fst d ++ [k])%list
    end.
Proof.
  induction d as [|[k' v'] d IH]; cbn; [reflexivity|].
  destruct (eqb k k') eqn:E; cbn; [reflexivity|].
  rewrite IH. now destruct (Dict.get eqb k d).
Qed.

Lemma dict_set_nodup (k : K) (v : V) (d : list (K * V)) :
  NoDup (map fst d) -> NoDup (map fst (Dict.set eqb k v d)).
Proof.
  intros H. rewrite dict_set_keys.
  destruct (Dict.get eqb k d) eqn:E; [exact H|].
  apply dict_get_none in E.
  apply NoDup_app; [exact H | repeat constructor; intros [] | ].
  intros x Hx [<-|[]]. contradiction.
Qed.

End DictFacts.

Section DictDelete.
Context {K V : Type} (eqb : K -> K -> bool).
Hypothesis eqb_eq : forall a b, eqb a b = true <-> a = b.

Lemma dict_del_keys_incl (k0 : K) (d : list (K * V)) :
  incl (map fst (Dict.del eqb k0 d)) (map fst d).
Proof.
  induction d as [|[k' v'] d IH]; cbn; [easy|].
  destruct (eqb k0 k'); cbn.
  - now apply incl_tl.
  - intros x [<-|Hx]; [now left | right; now apply IH].
Qed.

Lemma dict_del_nodup (k0 : K) (d : list (K * V)) :
  NoDup (map fst d) -> NoDup (map fst (Dict.del eqb k0 d)).
Proof.
  induction d as [|[k' v'] d IH]; cbn; [easy|].
  intros H. inversion H as [|x l Hnotin Hnd]; subst.
  destruct (eqb k0 k'); cbn; [exact Hnd|].
  constructor; [|now apply IH].
  intros Hin. apply Hnotin. now apply (dict_del_keys_incl k0 d).
Qed.

Lemma dict_del_keys (k0 k : K) (d : list (K * V)) :
  NoDup (map fst d) ->
  (In k (map fst (Dict.del eqb k0 d)) <-> In k (map fst d) /\ k <> k0).
Proof.
  induction d as [|[k' v'] d IH]; cbn; [tauto|].
  intros H. inversion H as [|x l Hnotin Hnd]; subst.
  destruct (eqb k0 k') eqn:E; cbn.
  - apply eqb_eq in E. subst k'. split.
    + intros Hin. split; [now right|]. intros ->. contradiction.
    + intros [[<-|Hin] Hne]; [contradiction | exact Hin].
  - rewrite (IH Hnd). split.
    + intros [<-|[Hin Hne]].
      * split; [now left|]. intros <-.
        rewrite (proj2 (eqb_eq k' k') eq_refl) in E. discriminate.
      * split; [now right | exact Hne].
    + intros [[<-|Hin] Hne]; [now left | right; now split].
Qed.

Lemma dict_set_keys_in (k0 k : K) (v : V) (d : list (K * V)) :
  In k (map fst (Dict.set eqb k0 v d)) <-> In k (map fst d) \/ k = k0.
Proof.
  rewrite dict_set_keys.
  destruct (Dict.get eqb k0 d) eqn:E.
  - split; [now left|]. intros [H| ->]; [exact H|].
    now apply (dict_get_in eqb eqb_eq k0 v0).
  - rewrite in_app_iff. cbn. split.
    + intros [H|[<-|[]]]; [now left | now right].
    + intros [H| ->]; [now left | right; now left].
Qed.

Lemma dict_get_del_neq (k k0 : K) (d : list (K * V)) :
  k <> k0 -> Dict.get eqb k (Dict.del eqb k0 d) = Dict.get eqb k d.
Proof.
  intros Hne. induction d as [|[k' v'] d IH]; cbn; [reflexivity|].
  destruct (eqb k0 k') eqn:E; cbn.
  - apply eqb_eq in E. subst k'.
    now rewrite (eqb_neq' eqb eqb_eq k k0 Hne).
  - now rewrite IH.
Qed.

Lemma dict_get_del_eq (k0 : K) (d : list (K * V)) :
  NoDup (map fst d) -> Dict.get eqb k0 (Dict.del eqb k0 d) = None.
Proof.
  intros Hnd. apply (dict_get_none eqb eqb_eq). intros Hin.
  apply (dict_del_keys k0 k0 d Hnd) in Hin as [_ Hne]. now apply Hne.
Qed.

End DictDelete.

Lemma hkey_eqb_eq (a b : hkey) : hkey_eqb a b = true <-> a = b.
Proof.
  destruct a as [x|], b as [y|]; cbn; try (split; congruence).
  rewrite String.eqb_eq. split; congruence.
Qed.

(** ** [convert_xml_to_dict] *)

Lemma children_loop (ks : list tag) (acc : list (string * pyval)) :
  (fix go (l : list tag) (children_dict : list (string * pyval))
     : list (string * pyval) :=
     match l with
     | [] => children_dict
     | Txt _ :: l' => go l' children_dict
     | (El n _ _ as child) :: l' =>
         go l' (add_child children_dict n (convert_xml_to_dict child))
     end) ks acc
  = children_dict_from ks acc.
Proof.
  revert acc. induction ks as [|k ks IH]; intros acc; [reflexivity|].
  destruct k as [s|n a cs]; cbn [children_dict_from fold_left]; apply IH.
Qed.

Lemma convert_unfold (t : tag) :
  convert_xml_to_dict t
  = match Soup.tag_string t with
    | Some (String c s) => VStr (String c s)
    | _ =>
        match t with
        | Txt _ => VDict []
        | El _ _ ks => VDict (children_dict_from ks [])
        end
    end.
Proof.
  destruct t as [s|n a ks].
  - destruct s; reflexivity.
  - rewrite <- children_loop.
    destruct (Soup.tag_string (El n a ks)) as [[|c s]|] eqn:E;
      cbn [convert_xml_to_dict]; rewrite E; reflexivity.
Qed.

Lemma convert_not_list (t : tag) (l : list pyval) :
  convert_xml_to_dict t <> VList l.
Proof.
  rewrite convert_unfold.
  destruct (Soup.tag_string t) as [[|c s]|]; destruct t; discriminate.
Qed.

Lemma convert_not_none (t : tag) : convert_xml_to_dict t <> VNone.
Proof.
  rewrite convert_unfold.
  destruct (Soup.tag_string t) as [[|c s]|]; destruct t; discriminate.
Qed.

Lemma named_values_app (n : string) (ks ks' : list tag) :
  named_values n (ks ++ ks') = (named_values n ks ++ named_values n ks')%list.
Proof. unfold named_values. now rewrite filter_app, map_app. Qed.

Lemma add_child_is_set (d : list (string * pyval)) (n : string) (v : pyval) :
  exists x, add_child d n v = Dict.set String.eqb n x d.
Proof.
  unfold add_child. destruct (Dict.get String.eqb n d) as [[| | |]|]; eauto.
Qed.

Lemma add_child_step (seen : list tag) (acc : list (string * pyval))
    (m : string) (a : list (string * string)) (cs : list tag) :
  (forall n, Dict.get String.eqb n acc = promoted (named_values n seen)) ->
  forall n,
    Dict.get String.eqb n
      (add_child acc m (convert_xml_to_dict (El m a cs)))
    = promoted (named_values n (seen ++ [El m a cs])).
Proof.
  intros Inv n. rewrite named_values_app.
  unfold named_values at 2. cbn [filter Soup.is_named].
  destruct (String.eqb n m) eqn:E.
  - apply String.eqb_eq in E. subst m. cbn [map].
    unfold add_child. rewrite (Inv n).
    unfold named_values.
    destruct (filter (Soup.is_named n) seen) as [|t1 [|t2 ts]]; cbn [map promoted app].
    + apply dict_get_set_eq, String.eqb_eq.
    + destruct (convert_xml_to_dict t1) eqn:E1;
        try (apply dict_get_set_eq, String.eqb_eq).
      now apply convert_not_list in E1.
    + rewrite (dict_get_set_eq String.eqb String.eqb_eq). reflexivity.
  - cbn [map]. rewrite app_nil_r.
    destruct (add_child_is_set acc m (convert_xml_to_dict (El m a cs))) as [x ->].
    rewrite (dict_get_set_neq String.eqb String.eqb_eq); [apply Inv|].
    intros ->. now rewrite String.eqb_refl in E.
Qed.

Lemma children_dict_lookup (ks seen : list tag)
    (acc : list (string * pyval)) :
  (forall n, Dict.get String.eqb n acc = promoted (named_values n seen)) ->
  forall n,
    Dict.get String.eqb n (children_dict_from ks acc)
    = promoted (named_values n (seen ++ ks)).
Proof.
  revert seen acc. induction ks as [|k ks IH]; intros seen acc Inv n.
  - rewrite app_nil_r. apply Inv.
  - replace (seen ++ k :: ks)%list with ((seen ++ [k]) ++ ks)%list
      by now rewrite <- app_assoc.
    cbn [children_dict_from fold_left]. apply IH. clear n. intros n.
    destruct k as [s|m a cs].
    + rewrite named_values_app. unfold named_values at 2. cbn.
      rewrite app_nil_r. apply Inv.
    + now apply add_child_step.
Qed.

Lemma children_dict_nodup (ks : list tag) (acc : list (string * pyval)) :
  NoDup (map fst acc) -> NoDup (map fst (children_dict_from ks acc)).
Proof.
  revert acc. induction ks as [|k ks IH]; intros acc H; [exact H|].
  cbn [children_dict_from fold_left]. apply IH.
  destruct k as [s|m a cs]; [exact H|].
  destruct (add_child_is_set acc m (convert_xml_to_dict (El m a cs))) as [x ->].
  now apply (dict_set_nodup String.eqb String.eqb_eq).
Qed.

(** X1.  A tag that is not turned into a string is turned into a
    dictionary whose keys are distinct; under the name of a child tag it
    holds the conversion of that child when the name occurs once, and the
    list of the conversions in document order when it occurs more often;
    names that do not occur are absent. *)
Theorem convert_children_rule (name : string)
    (attrs : list (string * string)) (ks : list tag) :
  (forall c s, Soup.tag_string (El name attrs ks) <> Some (String c s)) ->
  exists d,
    convert_xml_to_dict (El name attrs ks) = VDict d
    /\ NoDup (map fst d)
    /\ forall n,
         Dict.get String.eqb n d
         = promoted
             (map convert_xml_to_dict (Soup.children n (El name attrs ks))).
Proof.
  intros Hs. exists (children_dict_from ks []).
  split; [|split].
  - rewrite convert_unfold.
    destruct (Soup.tag_string (El name attrs ks)) as [[|c s]|] eqn:E;
      try reflexivity.
    now destruct (Hs c s).
  - apply children_dict_nodup. constructor.
  - intros n. apply (children_dict_lookup ks [] []). reflexivity.
Qed.

(** ** The repair of a number already taken *)

Lemma int_of_str (n : N) : int_of_digits (str_of_N n) = n.
Proof.
  unfold int_of_digits, str_of_N.
  pose proof (DecimalN.Unsigned.of_to n) as Hn.
  destruct (N.to_uint n) eqn:E;
    try (rewrite NilZero.usu by discriminate; exact Hn).
  cbn in Hn. subst n. reflexivity.
Qed.

Lemma repaired_differs (number : string) : repaired number <> number.
Proof.
  unfold repaired.
  destruct (is_some (re_match pattern_numeric number)); intros H.
  - apply (f_equal int_of_digits) in H. rewrite int_of_str in H. lia.
  - apply (f_equal String.length) in H. rewrite length_app in H.
    cbn in H. lia.
Qed.

(** X2.  The check of lines 243 to 251 leaves a number alone that no
    paragraph of the norm has as its id, and repairs it otherwise; the
    repaired number is never the number that was taken. *)
Theorem check_duplicate_rule (number : string) (ps : list paragraph) :
  check_duplicate number ps
  = (if id_free number ps then number else repaired number)
  /\ repaired number <> number.
Proof.
  split; [|apply repaired_differs].
  unfold id_free. induction ps as [|p ps IH]; [reflexivity|].
  cbn. destruct (String.eqb (paragraph_id p) number); [reflexivity|].
  exact IH.
Qed.

(** ** Greedy repetition of a character class *)

Lemma run_star {A : Type} (r : regex) (p : option ascii) (s : string)
    (k : option ascii -> string -> option A) :
  run (Star r) p s k = star_loop (run r) k (String.length s) p s.
Proof. reflexivity. Qed.

Lemma skip_while_length (q : ascii -> bool) (s : string) :
  (String.length (skip_while q s) <= String.length s)%nat.
Proof.
  induction s as [|c s IH]; cbn; [lia|].
  destruct (q c); cbn; lia.
Qed.

Lemma star_class_greedy {A : Type} (q : ascii -> bool)
    (k : option ascii -> string -> option A) (s : string) :
  forall (n : nat) (prev : option ascii) (x : A),
    (String.length s <= n)%nat ->
    k (last_skipped q prev s) (skip_while q s) = Some x ->
    star_loop (run (Class q)) k n prev s = Some x.
Proof.
  induction s as [|c s IH]; intros n prev x Hn Hk.
  - cbn in Hk. destruct n; cbn; exact Hk.
  - cbn [last_skipped skip_while] in Hk.
    destruct n as [|n]; [cbn in Hn; lia|].
    cbn [star_loop]. rewrite run_class.
    destruct (q c) eqn:Hq.
    + replace (String.length s <? String.length (String c s))%nat with true
        by (symmetry; apply Nat.ltb_lt; cbn; lia).
      rewrite (IH n (Some c) x); [reflexivity | cbn in Hn; lia | exact Hk].
    + exact Hk.
Qed.

Lemma match_plus_class (q : ascii -> bool) (prev : option ascii)
    (s : string) :
  match_here (Plus (Class q)) prev s
  = match s with
    | String c s' => if q c then Some (skip_while q s') else None
    | EmptyString => None
    end.
Proof.
  unfold match_here, Plus. rewrite run_cat, run_class.
  destruct s as [|c s']; [reflexivity|].
  destruct (q c); [|reflexivity].
  rewrite run_star. now apply star_class_greedy.
Qed.

(** ** Substitution of the characters that are no word characters *)

Lemma keep_skip_while (s : string) :
  keep is_word (skip_while not_word s) = keep is_word s.
Proof.
  induction s as [|c s IH]; [reflexivity|].
  cbn. unfold not_word at 1. destruct (is_word c) eqn:E; cbn.
  - now rewrite E.
  - exact IH.
Qed.

Lemma sub_nonword (n : nat) :
  forall (prev : option ascii) (s : string),
    (String.length s <= n)%nat ->
    sub_from n pattern_nonword EmptyString prev s = keep is_word s.
Proof.
  induction n as [|n IH]; intros prev s Hn.
  - destruct s; [reflexivity | cbn in Hn; lia].
  - destruct s as [|c s]; [reflexivity|].
    cbn [sub_from]. unfold pattern_nonword.
    fold not_word. rewrite match_plus_class.
    unfold not_word at 1. cbn [keep].
    destruct (is_word c) eqn:E; cbn [negb].
    + rewrite IH; [reflexivity | cbn in Hn; lia].
    + pose proof (skip_while_length not_word s) as Hl.
      replace (String.length (skip_while not_word s)
               <? String.length (String c s))%nat with true
        by (symmetry; apply Nat.ltb_lt; cbn; lia).
      cbn [append]. rewrite IH; [apply keep_skip_while|].
      cbn in Hn. lia.
Qed.

Lemma keep_all (q : ascii -> bool) (s : string) :
  all_chars q (keep q s) = true.
Proof.
  induction s as [|c s IH]; [reflexivity|].
  cbn. destruct (q c) eqn:E; cbn; [now rewrite E|exact IH].
Qed.

Lemma keep_id (q : ascii -> bool) (s : string) :
  all_chars q s = true -> keep q s = s.
Proof.
  induction s as [|c s IH]; [reflexivity|].
  cbn. intros H. apply andb_true_iff in H as [Hc Hs].
  now rewrite Hc, IH.
Qed.

(** X3.  [re.sub(r'\W+', '', s)] is [s] without its characters that are
    no word characters.  So the name of the zip file of a link (line 36 of
    the download script) has word characters only before its ".zip", and
    the substitution changes nothing in a text made of word characters,
    such as the number matched at line 237. *)
Theorem nonword_substitution (s : string) :
  re_sub pattern_nonword EmptyString s = keep is_word s
  /\ zip_name s = keep is_word s ++ ".zip"
  /\ all_chars is_word (keep is_word s) = true
  /\ re_sub pattern_nonword EmptyString (keep is_word s) = keep is_word s.
Proof.
  assert (H : forall t,
             re_sub pattern_nonword EmptyString t = keep is_word t).
  { intros t. unfold re_sub. now apply sub_nonword. }
  split; [apply H|]. split; [unfold zip_name; now rewrite H|].
  split; [apply keep_all|].
  rewrite H. apply keep_id, keep_all.
Qed.

(** ** The number at the start of a word *)

Lemma decimal_is_word (c : ascii) : is_decimal c = true -> is_word c = true.
Proof.
  intros H. unfold is_word, isdigit_char. rewrite H.
  now rewrite !orb_true_r.
Qed.

Lemma letter_is_word (c : ascii) :
  is_ascii_letter c = true -> is_word c = true.
Proof. intros H. unfold is_word, is_alpha. now rewrite H. Qed.

Lemma skip_digits (ds post : string) (prev : option ascii) :
  all_chars is_decimal ds = true ->
  word_after post = false ->
  skip_while is_decimal (ds ++ post) = post
  /\ (word_before prev = true ->
      word_before (last_skipped is_decimal prev (ds ++ post)) = true).
Proof.
  intros Hds Hpost. revert prev.
  induction ds as [|d ds IH]; intros prev.
  - cbn [append]. destruct post as [|c post]; [now split|].
    cbn in Hpost. cbn.
    destruct (is_decimal c) eqn:E; [|now split].
    apply decimal_is_word in E. congruence.
  - cbn in Hds. apply andb_true_iff in Hds as [Hd Hds].
    cbn. rewrite Hd. destruct (IH Hds (Some d)) as [H1 H2].
    split; [exact H1|]. intros _. apply H2. cbn. now apply decimal_is_word.
Qed.

Lemma match_number_here (prev : option ascii) (d : ascii)
    (ds post : string) :
  word_before prev = false ->
  is_decimal d = true ->
  all_chars is_decimal ds = true ->
  word_after post = false ->
  match_here pattern_number prev (String d ds ++ post) = Some post.
Proof.
  intros Hprev Hd Hds Hpost.
  unfold match_here, pattern_number.
  rewrite run_cat.
  change (run WordB prev (String d ds ++ post) ?k)
    with (if xorb (word_before prev) (word_after (String d ds ++ post))
          then k prev (String d ds ++ post) else None).
  cbn [append word_after].
  rewrite Hprev, (decimal_is_word d Hd). cbn [xorb].
  unfold Plus. rewrite !run_cat, run_class, Hd, run_star.
  destruct (skip_digits ds post (Some d) Hds Hpost) as [Hskip Hlast].
  apply star_class_greedy; [lia|].
  rewrite Hskip.
  assert (Hw : word_before (last_skipped is_decimal (Some d) (ds ++ post))
               = true).
  { apply Hlast. cbn. now apply decimal_is_word. }
  rewrite run_cat. unfold Opt. rewrite run_alt, run_class.
  assert (Hl : match post with
               | String c s' =>
                   if is_ascii_letter c
                   then run WordB (Some c) s' accept else None
               | EmptyString => None
               end = None).
  { destruct post as [|c post]; [reflexivity|].
    cbn in Hpost. destruct (is_ascii_letter c) eqn:E; [|reflexivity].
    apply letter_is_word in E. congruence. }
  rewrite Hl.
  change (run Eps ?p ?s ?k) with (k p s). cbn beta.
  change (run WordB ?p post accept)
    with (if xorb (word_before p) (word_after post)
          then accept p post else None).
  now rewrite Hw, Hpost.
Qed.

Lemma no_number_here (prev : option ascii) (c : ascii) (s : string) :
  word_before prev = false ->
  is_word c = false ->
  match_here pattern_number prev (String c s) = None.
Proof.
  intros Hprev Hc. unfold match_here, pattern_number.
  rewrite run_cat.
  change (run WordB prev (String c s) ?k)
    with (if xorb (word_before prev) (word_after (String c s))
          then k prev (String c s) else None).
  cbn [word_after]. now rewrite Hprev, Hc.
Qed.

Lemma matched_prefix (ds post : string) :
  matched (ds ++ post) post = ds.
Proof.
  unfold matched. rewrite length_app.
  replace (String.length ds + String.length post - String.length post)%nat
    with (String.length ds) by lia.
  apply take_app.
Qed.

Lemma search_bracketed_number (pre ds post : string) :
  all_chars not_word pre = true ->
  ds <> EmptyString ->
  all_chars is_decimal ds = true ->
  word_after post = false ->
  re_search pattern_number (pre ++ ds ++ post) = Some ds.
Proof.
  intros Hpre Hne Hds Hpost. unfold re_search.
  assert (G : forall prev,
             word_before prev = false ->
             search_from pattern_number prev (pre ++ ds ++ post) = Some ds).
  { induction pre as [|c pre IH]; intros prev Hprev.
    - cbn [append]. destruct ds as [|d ds]; [contradiction|].
      cbn in Hds. apply andb_true_iff in Hds as [Hd Hds].
      pose proof (match_number_here prev d ds post Hprev Hd Hds Hpost) as H.
      cbn [append] in H. cbn [append search_from]. rewrite H.
      f_equal. exact (matched_prefix (String d ds) post).
    - cbn in Hpre. apply andb_true_iff in Hpre as [Hc Hpre].
      unfold not_word in Hc. apply negb_true_iff in Hc.
      cbn [append search_from].
      rewrite (no_number_here prev c _ Hprev Hc).
      apply (IH Hpre). cbn. exact Hc. }
  now apply G.
Qed.

(** X4.  In a word made of characters that are no word characters, then
    decimal digits, then nothing or a rest that begins with a character
    that is no word character, the number found by [pattern_number] is
    the digits: "(12)", "12." and "12" give "12". *)
Theorem number_of_bracketed_word (pre ds post : string) :
  all_chars not_word pre = true ->
  ds <> EmptyString ->
  all_chars is_decimal ds = true ->
  word_after post = false ->
  re_search pattern_number (pre ++ ds ++ post) = Some ds.
Proof. apply search_bracketed_number. Qed.

Lemma digits_are_words (ds : string) :
  all_chars is_decimal ds = true -> all_chars is_word ds = true.
Proof.
  induction ds as [|d ds IH]; [reflexivity|].
  cbn. intros H. apply andb_true_iff in H as [Hd Hds].
  now rewrite (decimal_is_word d Hd), IH.
Qed.

Lemma id_free_app (number : string) (ps qs : list paragraph) :
  id_free number (ps ++ qs) = id_free number ps && id_free number qs.
Proof. unfold id_free. apply forallb_app. Qed.

Lemma check_duplicate_free (number : string) (ps : list paragraph) :
  id_free number ps = true -> check_duplicate number ps = number.
Proof.
  unfold id_free. induction ps as [|p ps IH]; [reflexivity|].
  cbn. intros H. apply andb_true_iff in H as [Hp Hps].
  apply negb_true_iff in Hp. rewrite Hp. now apply IH.
Qed.

Lemma number_of_leading (st : numbering) (P : tag) (ds : string) :
  leads_with P ds ->
  id_free ds (this_paragraphs st) = true ->
  number_of st P = (ds, true, false).
Proof.
  intros (pre & post & rest & Hsplit & Hpre & Hne & Hds & Hpost) Hfree.
  unfold number_of. rewrite Hsplit.
  rewrite (search_bracketed_number pre ds post Hpre Hne Hds Hpost).
  unfold re_sub. rewrite sub_nonword by lia.
  rewrite (keep_id is_word ds (digits_are_words ds Hds)).
  now rewrite check_duplicate_free.
Qed.

(** ** The merge of the JSON files *)

Lemma dict_get_set (k k' : string) {V : Type} (v : V)
    (d : list (string * V)) :
  Dict.get String.eqb k (Dict.set String.eqb k' v d)
  = if String.eqb k' k then Some v else Dict.get String.eqb k d.
Proof.
  destruct (String.eqb k' k) eqn:E.
  - apply String.eqb_eq in E. subst k'.
    apply dict_get_set_eq, String.eqb_eq.
  - apply (dict_get_set_neq String.eqb String.eqb_eq).
    intros ->. now rewrite String.eqb_refl in E.
Qed.

Lemma merge_get (files : list (string * result)) :
  forall (acc : list (string * law)) (u : list (list string)) (k : string),
    Dict.get String.eqb k (fst (merge files acc u))
    = match last_with_key k files with
      | Some r => Some (output r)
      | None => Dict.get String.eqb k acc
      end.
Proof.
  induction files as [|[name r] files IH]; intros acc u k; [reflexivity|].
  cbn [merge last_with_key]. rewrite IH.
  destruct (last_with_key k files); [reflexivity|].
  rewrite dict_get_set. now destruct (String.eqb (key r) k).
Qed.

Lemma merge_nodup (files : list (string * result)) :
  forall (acc : list (string * law)) (u : list (list string)),
    NoDup (map fst acc) -> NoDup (map fst (fst (merge files acc u))).
Proof.
  induction files as [|[name r] files IH]; intros acc u H; [exact H|].
  cbn [merge]. apply IH.
  now apply (dict_set_nodup String.eqb String.eqb_eq).
Qed.

Lemma merge_reports (files : list (string * result)) :
  forall (acc : list (string * law)) (u : list (list string)),
    snd (merge files acc u)
    = (u ++ filter (fun l => negb (is_empty l))
              (map (fun f => unprocessed_absatze (snd f)) files))%list.
Proof.
  induction files as [|[name r] files IH]; intros acc u.
  - cbn. now rewrite app_nil_r.
  - cbn [merge map filter snd]. rewrite IH.
    destruct (unprocessed_absatze r) as [|x l]; cbn [is_empty negb].
    + reflexivity.
    + now rewrite <- app_assoc.
Qed.

(** X5.  The merged output holds, under a key, the record of the last
    JSON file that carries this key, and nothing under a key that no file
    carries; its keys are distinct; the report lists are those of the
    files that are not empty, in the order of the files. *)
Theorem merge_rule (files : list (string * result)) :
  (forall k,
     Dict.get String.eqb k (fst (merge files [] []))
     = option_map output (last_with_key k files))
  /\ NoDup (map fst (fst (merge files [] [])))
  /\ snd (merge files [] [])
     = filter (fun l => negb (is_empty l))
         (map (fun f => unprocessed_absatze (snd f)) files).
Proof.
  split; [|split].
  - intros k. rewrite merge_get. now destruct (last_with_key k files).
  - apply merge_nodup. constructor.
  - now rewrite merge_reports.
Qed.

Lemma dict_in_get {V : Type} (d : list (string * V)) (k : string) (v : V) :
  NoDup (map fst d) ->
  (In (k, v) d <-> Dict.get String.eqb k d = Some v).
Proof.
  induction d as [|[k' v'] d IH]; intros Hnd.
  - cbn. split; [tauto | discriminate].
  - cbn in Hnd. inversion Hnd as [|x l Hnotin Hnd']; subst.
    cbn. destruct (String.eqb k k') eqn:E.
    + apply String.eqb_eq in E. subst k'. split.
      * intros [[= ->]|Hin]; [reflexivity|].
        exfalso. apply Hnotin. now apply (in_map fst) in Hin.
      * intros [= ->]. now left.
    + rewrite <- (IH Hnd'). split.
      * intros [[= -> _]|Hin]; [now rewrite String.eqb_refl in E | exact Hin].
      * now right.
Qed.

(** X6.  After the merge a file of the input is reported as missing
    exactly when it is the source of no record that is the last one of
    its key: a file whose record was replaced by a later file with the
    same key is reported, like a file without a JSON file. *)
Theorem missing_after_merge (xml_filenames : list string)
    (files : list (string * result)) (x : string) :
  In x (missing_files xml_filenames (fst (merge files [] [])))
  <-> In x xml_filenames
      /\ forall k r,
           last_with_key k files = Some r -> meta_source (output r) <> x.
Proof.
  unfold missing_files. rewrite filter_In.
  apply and_iff_compat_l.
  rewrite negb_true_iff. split.
  - intros Hex k r Hlast Hsrc.
    assert (Hin : In (k, output r) (fst (merge files [] []))).
    { apply dict_in_get; [apply merge_nodup; constructor|].
      rewrite merge_get. now rewrite Hlast. }
    assert (Ht : existsb
                   (fun kv => String.eqb (meta_source (snd kv)) x)
                   (fst (merge files [] [])) = true).
    { apply existsb_exists. exists (k, output r). split; [exact Hin|].
      cbn. now apply String.eqb_eq. }
    congruence.
  - intros H.
    destruct (existsb _ _) eqn:E; [|reflexivity].
    apply existsb_exists in E as ([k v] & Hin & Hsrc).
    apply String.eqb_eq in Hsrc. cbn in Hsrc.
    apply dict_in_get in Hin; [|apply merge_nodup; constructor].
    rewrite merge_get in Hin.
    destruct (last_with_key k files) as [r|] eqn:Hlast; [|discriminate].
    injection Hin as <-. exfalso. exact (H k r Hlast Hsrc).
Qed.

(** ** The name of the JSON file *)

Lemma before_dot_app (p q : string) :
  all_chars (fun c => negb (is_code 46 c)) p = true ->
  before_dot (p ++ String "." q) = p.
Proof.
  induction p as [|c p IH]; [reflexivity|].
  cbn. intros H. apply andb_true_iff in H as [Hc Hp].
  apply negb_true_iff in Hc. rewrite Hc. now rewrite IH.
Qed.

Lemma before_dot_no_dot (s : string) :
  all_chars (fun c => negb (is_code 46 c)) (before_dot s) = true.
Proof.
  induction s as [|c s IH]; [reflexivity|].
  cbn. destruct (is_code 46 c) eqn:E; [reflexivity|].
  cbn. now rewrite E.
Qed.

(** X7.  The name of the JSON file of a document is the part of the file
    name before its first dot, with ".json": two files whose names agree
    up to their first dot are written to the same JSON file. *)
Theorem json_name_first_dot (f q : string) :
  json_name (before_dot f ++ String "." q) = json_name f
  /\ all_chars (fun c => negb (is_code 46 c)) (before_dot f) = true.
Proof.
  split; [|apply before_dot_no_dot].
  unfold json_name. now rewrite before_dot_app by apply before_dot_no_dot.
Qed.

Section FurtherProperties.

Variable num_tokens_from_string : string -> N.
Variable py_repr : pyval -> string.

(** ** Metadata blocks that are read as one string *)

(** X8.  When the first [metadaten] tag of a document has a non-empty
    [string] (its only child, or the only child of that child and so on, is
    a text), [convert_xml_to_dict] returns that text although a [dict] is
    expected, and [process_file] raises [AttributeError] on the [get] of
    line 103; nothing is registered, written or printed. *)
Theorem metadata_read_as_string_fails (d : document) (w : world)
    (m : tag) (c : ascii) (s : string) :
  Soup.find "metadaten" (soup d) = Some m ->
  Soup.tag_string m = Some (String c s) ->
  convert_xml_to_dict m = VStr (String c s)
  /\ process_file num_tokens_from_string py_repr d w
     = Raised AttributeError w.
Proof.
  intros Hm Hs.
  assert (Hc : convert_xml_to_dict m = VStr (String c s)).
  { rewrite convert_unfold. now rewrite Hs. }
  split; [exact Hc|].
  unfold process_file, bind, lift. rewrite Hm. cbn [convert_found].
  now rewrite Hc.
Qed.

(** X9.  A norm whose [metadaten] tag has a non-empty [string] is left out
    of the output whatever its designation is: its metadata are a string,
    not a dictionary. *)
Theorem norm_metadata_read_as_string_skipped
    (filename key_process : string) (acc : list norm * list string)
    (law m : tag) (c : ascii) (s : string) :
  Soup.find "metadaten" law = Some m ->
  Soup.tag_string m = Some (String c s) ->
  process_norm num_tokens_from_string filename key_process acc law = Ok acc.
Proof.
  intros Hm Hs. destruct acc as [ns u].
  unfold process_norm. rewrite Hm. cbn [convert_found res_bind].
  rewrite convert_unfold, Hs. reflexivity.
Qed.

(** ** Registration and lookup *)

Lemma register_key_done (f key_planned key_process : string) (w w' : world)
    (k : string) :
  register_key f key_planned key_process w = Done k w' ->
  (k = key_process \/ k = key_planned)
  /\ Dict.get hkey_eqb (Some k) (file_keys w') = Some f
  /\ json_dir w' = json_dir w
  /\ printed w' = printed w.
Proof.
  unfold register_key, bind, read, lift, ret, set_all_laws, set_file_keys,
    update.
  destruct (Dict.mem hkey_eqb (Some key_process) (file_keys w)
            || Dict.mem hkey_eqb (Some key_planned) (file_keys w)).
  - destruct (subscript (all_laws w) (Some key_process)) as [previous|x];
      [|discriminate].
    destruct (candidate (metadaten previous)) as [corrected|x];
      [|discriminate].
    destruct (negb (pyval_eqb corrected (VStr key_process))).
    + destruct (hashable corrected) as [ck|x]; [|discriminate].
      cbn [all_laws file_keys json_dir printed].
      destruct (subscript (file_keys w) (Some key_process)) as [pf|x];
        [|discriminate].
      cbn [all_laws file_keys json_dir printed].
      intros [= <- <-]. cbn [all_laws file_keys json_dir printed].
      repeat split; auto.
      apply dict_get_set_eq, hkey_eqb_eq.
    + intros [= <- <-]. cbn [all_laws file_keys json_dir printed].
      repeat split; auto.
      apply dict_get_set_eq, hkey_eqb_eq.
  - intros [= <- <-]. cbn [all_laws file_keys json_dir printed].
    repeat split; auto.
    apply dict_get_set_eq, hkey_eqb_eq.
Qed.

(** X10.  When [process_file] returns, either the key is the empty string:
    it is registered for the file, the message of line 325 is printed and
    no JSON file is written; or the JSON file of the document holds a
    result whose key is not empty, under which the registry holds the
    name of the file and the output dictionary holds the record written,
    and the record names the file as its source. *)
Theorem completed_file_is_registered (d : document) (w w' : world) :
  process_file num_tokens_from_string py_repr d w = Done tt w' ->
  (Dict.get hkey_eqb (Some EmptyString) (file_keys w') = Some (filename d)
   /\ json_dir w' = json_dir w
   /\ printed w'
      = (printed w
         ++ [("Could not find amtabk or jurabk for " ++ filename d)%string])%list)
  \/ (exists r,
        Dict.get String.eqb (json_name (filename d)) (json_dir w') = Some r
        /\ key r <> EmptyString
        /\ Dict.get hkey_eqb (Some (key r)) (file_keys w')
           = Some (filename d)
        /\ Dict.get hkey_eqb (Some (key r)) (all_laws w') = Some (output r)
        /\ meta_source (output r) = filename d
        /\ printed w' = printed w).
Proof.
  unfold process_file, bind, lift.
  destruct (convert_found (Soup.find "metadaten" (soup d))) as [md|x];
    [|discriminate].
  destruct (py_get "ausfertigung-datum" md) as [lc|x]; [|discriminate].
  destruct (res_bind (candidate md) first_of_lists) as [kp|x];
    [|discriminate].
  destruct (remove_year_from_key kp) as [kpr|x]; [|discriminate].
  destruct (as_str kp) as [kps|x]; [|discriminate].
  destruct (as_str kpr) as [kprs|x]; [|discriminate].
  destruct (register_key (filename d) kps kprs w) as [k w1|x w1] eqn:Er;
    [|discriminate].
  apply register_key_done in Er as (_ & Hfk & Hjd & Hpr).
  destruct (alt_of "jurabk" md) as [aj|x]; [|discriminate].
  destruct (alt_of "amtabk" md) as [aa|x]; [|discriminate].
  destruct (process_norms _ _ _ _ _) as [found|x]; [|discriminate].
  destruct (String.eqb k EmptyString) eqn:E; cbn [negb].
  - apply String.eqb_eq in E. subst k.
    unfold print, update. intros [= <-].
    cbn [all_laws file_keys json_dir printed].
    left. rewrite Hpr. auto.
  - apply String.eqb_neq in E.
    unfold set_all_laws, write_json, update.
    intros [= <-]. cbn [all_laws file_keys json_dir printed].
    right. eexists. split; [apply get_set_same|].
    cbn [key output meta_source].
    repeat split; auto.
    apply dict_get_set_eq, hkey_eqb_eq.
Qed.

Lemma dict_mem_false {V : Type} (k : hkey) (d : list (hkey * V)) :
  Dict.mem hkey_eqb k d = false -> Dict.get hkey_eqb k d = None.
Proof. unfold Dict.mem. now destruct (Dict.get hkey_eqb k d). Qed.

(** X11.  A document whose candidate and year-stripped key are both not
    registered takes the year-stripped key and leaves every other entry
    alone: the registry gets one entry more, at its end, and under every
    other key the registry and the output dictionary hold what they held
    before, also when the call raises later on. *)
Theorem unregistered_key_is_added (d : document) (w : world)
    (md : list (string * pyval)) (key_planned : string) :
  convert_found (Soup.find "metadaten" (soup d)) = Ok (VDict md) ->
  first_of_lists (jurabk_or_amtabk md) = Ok (VStr key_planned) ->
  Dict.mem hkey_eqb (Some (without_year key_planned)) (file_keys w) = false ->
  Dict.mem hkey_eqb (Some key_planned) (file_keys w) = false ->
  let w' := world_of (process_file num_tokens_from_string py_repr d w) in
  file_keys w'
  = (file_keys w ++ [(Some (without_year key_planned), filename d)])%list
  /\ forall k,
       k <> Some (without_year key_planned) ->
       Dict.get hkey_eqb k (all_laws w') = Dict.get hkey_eqb k (all_laws w).
Proof.
  intros Hmd Hc Hk Hp w'. subst w'.
  unfold process_file, bind, lift. rewrite Hmd.
  cbn [py_get py_get_default candidate res_bind].
  fold (jurabk_or_amtabk md). rewrite Hc.
  cbn [remove_year_from_key as_str]. fold (without_year key_planned).
  unfold register_key, bind, read, ret, set_file_keys, update.
  rewrite Hk, Hp. cbn [orb file_keys all_laws json_dir printed].
  rewrite (dict_set_absent hkey_eqb) by now apply dict_mem_false.
  destruct (alt_of "jurabk" (VDict md)); [|split; reflexivity].
  destruct (alt_of "amtabk" (VDict md)); [|split; reflexivity].
  destruct (process_norms _ _ _ _ _); [|split; reflexivity].
  destruct (negb (String.eqb (without_year key_planned) EmptyString)).
  - cbn [set_all_laws write_json update world_of all_laws file_keys].
    split; [reflexivity|]. intros k Hne.
    now apply (dict_get_set_neq hkey_eqb hkey_eqb_eq).
  - cbn [print update world_of all_laws file_keys]. split; reflexivity.
Qed.

(** X12.  When the candidate or the year-stripped key of a document is
    registered but the output dictionary has no record under the
    year-stripped key, line 137 raises [KeyError]: the call changes
    nothing and registers nothing. *)
Theorem registered_without_record_raises (d : document) (w : world)
    (md : list (string * pyval)) (key_planned : string) :
  convert_found (Soup.find "metadaten" (soup d)) = Ok (VDict md) ->
  first_of_lists (jurabk_or_amtabk md) = Ok (VStr key_planned) ->
  Dict.mem hkey_eqb (Some (without_year key_planned)) (file_keys w)
  || Dict.mem hkey_eqb (Some key_planned) (file_keys w) = true ->
  Dict.get hkey_eqb (Some (without_year key_planned)) (all_laws w) = None ->
  process_file num_tokens_from_string py_repr d w = Raised KeyError w.
Proof.
  intros Hmd Hc Hreg Hnone.
  unfold process_file, bind, lift. rewrite Hmd.
  cbn [py_get py_get_default candidate res_bind].
  fold (jurabk_or_amtabk md). rewrite Hc.
  cbn [remove_year_from_key as_str]. fold (without_year key_planned).
  unfold register_key, bind, read, lift.
  rewrite Hreg. unfold subscript. now rewrite Hnone.
Qed.

(** ** The alternate title *)

Lemma alt_of_text (k s : string) (md : list (string * pyval)) :
  Dict.get String.eqb k md = Some (VStr s) ->
  alt_of k (VDict md) = Ok (VStr (without_year s)).
Proof.
  intros H. unfold alt_of, py_get, py_get_default. rewrite H.
  cbn [res_bind truthy]. destruct s; reflexivity.
Qed.

Lemma alt_title_of_texts (j a : string) :
  alt_title_of py_repr (VStr (without_year j)) (VStr (without_year a)) j
  = alt_title_expected j a.
Proof.
  unfold alt_title_of, alt_title_expected. cbn [truthy pyval_eqb py_str].
  destruct (String.eqb (without_year j) EmptyString);
    destruct (String.eqb (without_year a) EmptyString);
    destruct (String.eqb (without_year j) (without_year a));
    destruct (String.eqb (without_year j) j); reflexivity.
Qed.

(** X13.  For a law whose [jurabk] and [amtabk] are both texts, the record
    written has an alternate title only when the two differ after their
    years are removed and neither is empty then.  It is the [amtabk]
    without its year when the [jurabk] has no year suffix; when the
    [jurabk] has one, it is the [jurabk] without its year, not the
    [amtabk]. *)
Theorem alt_title_rule (d : document) (w w' : world)
    (md : list (string * pyval)) (j a : string) :
  process_file num_tokens_from_string py_repr d w = Done tt w' ->
  convert_found (Soup.find "metadaten" (soup d)) = Ok (VDict md) ->
  Dict.get String.eqb "jurabk" md = Some (VStr j) ->
  Dict.get String.eqb "amtabk" md = Some (VStr a) ->
  printed w'
  = (printed w
     ++ [("Could not find amtabk or jurabk for " ++ filename d)%string])%list
  \/ exists r,
       Dict.get String.eqb (json_name (filename d)) (json_dir w') = Some r
       /\ meta_alt_title (output r) = alt_title_expected j a.
Proof.
  intros Hrun Hmd Hj Ha. revert Hrun.
  unfold process_file, bind, lift. rewrite Hmd.
  cbn [py_get py_get_default candidate res_bind]. rewrite Hj.
  cbn [first_of_lists remove_year_from_key as_str].
  fold (without_year j).
  destruct (register_key (filename d) j (without_year j) w)
    as [k w1|x w1] eqn:Er; [|discriminate].
  apply register_key_done in Er as (_ & _ & _ & Hpr).
  rewrite (alt_of_text "jurabk" j md Hj), (alt_of_text "amtabk" a md Ha).
  destruct (process_norms _ _ _ _ _) as [found|x]; [|discriminate].
  destruct (negb (String.eqb k EmptyString)).
  - unfold set_all_laws, write_json, update. intros [= <-].
    cbn [json_dir]. right. eexists. split; [apply get_set_same|].
    cbn [output meta_alt_title]. apply alt_title_of_texts.
  - unfold print, update. intros [= <-]. cbn [printed]. left.
    now rewrite Hpr.
Qed.

(** ** The content of a paragraph *)

Lemma sub_whitespace_no_newline (repl : string) (n : nat) :
  forall (prev : option ascii) (s : string),
    all_chars not_newline s = true ->
    sub_from n whitespace_pattern repl prev s = s.
Proof.
  induction n as [|n IH]; intros prev s Hs; [reflexivity|].
  destruct s as [|c s]; [reflexivity|].
  cbn in Hs. apply andb_true_iff in Hs as [Hc Hs].
  unfold not_newline in Hc. apply negb_true_iff in Hc.
  cbn [sub_from].
  assert (Hm : match_here whitespace_pattern prev (String c s) = None).
  { unfold match_here, whitespace_pattern. rewrite run_cat.
    unfold Chr at 1. rewrite run_class. now rewrite Hc. }
  rewrite Hm. now rewrite IH.
Qed.

Lemma star_space_to_last_newline (b : string) :
  all_chars not_newline b = true ->
  match b with String c _ => is_space c | EmptyString => false end = false ->
  forall (ws : string) (n : nat) (prev : option ascii),
    all_chars is_space ws = true ->
    (String.length (ws ++ String newline b) <= n)%nat ->
    star_loop (run (Class is_space))
      (fun p s => run (Chr newline) p s accept) n prev
      (ws ++ String newline b)
    = Some b.
Proof.
  intros Hb Hhead.
  assert (Hnl : is_space newline = true) by reflexivity.
  assert (Hstop : forall n prev,
             star_loop (run (Class is_space))
               (fun p s => run (Chr newline) p s accept) n prev b = None).
  { intros n prev.
    assert (Hk : run (Chr newline) prev b accept = None).
    { unfold Chr. rewrite run_class. destruct b as [|c b']; [reflexivity|].
      cbn in Hb. apply andb_true_iff in Hb as [Hc _].
      unfold not_newline in Hc. apply negb_true_iff in Hc. now rewrite Hc. }
    destruct n as [|n]; cbn [star_loop]; [exact Hk|].
    rewrite run_class. destruct b as [|c b']; [exact Hk|].
    rewrite Hhead. exact Hk. }
  induction ws as [|c ws IH]; intros n prev Hws Hn.
  - cbn [append] in *. destruct n as [|n]; [cbn [String.length] in Hn; lia|].
    cbn [star_loop]. rewrite run_class, Hnl.
    replace (String.length b <? String.length (String newline b))%nat
      with true by (symmetry; apply Nat.ltb_lt; cbn [String.length]; lia).
    rewrite Hstop. unfold Chr. rewrite run_class, Ascii.eqb_refl.
    reflexivity.
  - cbn in Hws. apply andb_true_iff in Hws as [Hc Hws].
    cbn [append] in *. destruct n as [|n]; [cbn [String.length] in Hn; lia|].
    cbn [star_loop]. rewrite run_class, Hc.
    replace (String.length (ws ++ String newline b)
             <? String.length (String c (ws ++ String newline b)))%nat
      with true by (symmetry; apply Nat.ltb_lt; cbn [String.length]; lia).
    rewrite IH; [reflexivity | exact Hws | cbn [String.length] in Hn; lia].
Qed.

Lemma match_blank_lines (prev : option ascii) (c : ascii) (ws b : string) :
  is_space c = true ->
  all_chars is_space ws = true ->
  all_chars not_newline b = true ->
  match b with String c _ => is_space c | EmptyString => false end = false ->
  match_here whitespace_pattern prev
    (String newline (String c ws ++ String newline b))
  = Some b.
Proof.
  intros Hc Hws Hb Hhead.
  unfold match_here, whitespace_pattern.
  rewrite run_cat. unfold Chr at 1. rewrite run_class, Ascii.eqb_refl.
  unfold Plus. rewrite !run_cat. cbn [append]. rewrite run_class, Hc.
  rewrite run_star.
  now apply star_space_to_last_newline.
Qed.

Lemma sub_blank_lines (a : string) :
  all_chars not_newline a = true ->
  forall (c : ascii) (ws b : string) (n : nat) (prev : option ascii),
    is_space c = true ->
    all_chars is_space ws = true ->
    all_chars not_newline b = true ->
    match b with String c _ => is_space c | EmptyString => false end = false ->
    (String.length (a ++ String newline (String c ws ++ String newline b))
     <= n)%nat ->
    sub_from n whitespace_pattern two_newlines prev
      (a ++ String newline (String c ws ++ String newline b))
    = a ++ two_newlines ++ b.
Proof.
  intros Ha c ws b. induction a as [|x a IH]; intros n prev Hc Hws Hb Hhead Hn.
  - cbn [append] in *. destruct n as [|n]; [cbn [String.length] in Hn; lia|].
    cbn [sub_from].
    pose proof (match_blank_lines prev c ws b Hc Hws Hb Hhead) as Hm.
    cbn [append] in Hm. rewrite Hm.
    replace (String.length b
             <? String.length
                  (String newline (String c (ws ++ String newline b))))%nat
      with true.
    2:{ symmetry. apply Nat.ltb_lt. cbn. rewrite length_app. cbn. lia. }
    now rewrite sub_whitespace_no_newline.
  - cbn in Ha. apply andb_true_iff in Ha as [Hx Ha].
    cbn [append] in *. destruct n as [|n]; [cbn [String.length] in Hn; lia|].
    cbn [sub_from].
    assert (Hm : match_here whitespace_pattern prev
                   (String x (a ++ String newline
                                     (String c (ws ++ String newline b))))
                 = None).
    { unfold match_here, whitespace_pattern. rewrite run_cat.
      unfold Chr at 1. rewrite run_class.
      unfold not_newline in Hx. apply negb_true_iff in Hx. now rewrite Hx. }
    rewrite Hm. rewrite (IH Ha); [reflexivity | assumption..|].
    cbn [String.length] in Hn. lia.
Qed.

(** X14.  In the content of a paragraph a line break, whitespace and a
    line break become two line breaks: the text [a], a line break, the
    whitespace [ws] (not empty, line breaks included), a line break and
    the text [b] is turned into [a], two line breaks and [b], when [a]
    and [b] hold no line break and [b] does not begin with whitespace; a
    text without a line break stays as it is. *)
Theorem blank_lines_are_collapsed (a ws b : string) :
  all_chars not_newline a = true ->
  ws <> EmptyString ->
  all_chars is_space ws = true ->
  all_chars not_newline b = true ->
  match b with String c _ => is_space c | EmptyString => false end = false ->
  re_sub whitespace_pattern two_newlines
    (a ++ String newline (ws ++ String newline b))
  = a ++ two_newlines ++ b
  /\ re_sub whitespace_pattern two_newlines a = a.
Proof.
  intros Ha Hne Hws Hb Hhead. split.
  - destruct ws as [|c ws]; [contradiction|].
    cbn in Hws. apply andb_true_iff in Hws as [Hc Hws].
    unfold re_sub. now apply sub_blank_lines.
  - unfold re_sub. now apply sub_whitespace_no_newline.
Qed.

(** ** The loop over the content blocks *)

Lemma add_to_previous_ids (number : string) (p_obj : paragraph)
    (ps : list paragraph) :
  map paragraph_id (add_to_previous number p_obj ps) = map paragraph_id ps.
Proof.
  induction ps as [|p ps IH]; [reflexivity|].
  cbn. destruct (String.eqb (paragraph_id p) number); cbn; congruence.
Qed.

Lemma add_to_previous_absent (number : string) (p_obj : paragraph)
    (ps : list paragraph) :
  id_free number ps = true -> add_to_previous number p_obj ps = ps.
Proof.
  unfold id_free. induction ps as [|p ps IH]; [reflexivity|].
  cbn. intros H. apply andb_true_iff in H as [Hp Hps].
  apply negb_true_iff in Hp. rewrite Hp. now rewrite IH.
Qed.

Lemma process_P_shape (filename key_process nid : string)
    (output_norms : list norm) (st : numbering) (P : tag) :
  let st' :=
    process_P num_tokens_from_string filename key_process nid output_norms
      st P in
  p_i st' = (p_i st + 1)%N
  /\ exists more,
       map paragraph_id (this_paragraphs st')
       = (map paragraph_id (this_paragraphs st) ++ more)%list
       /\ (List.length more <= 1)%nat.
Proof.
  unfold process_P.
  destruct (number_of st P) as [[number numbered] number_missing].
  destruct number_missing.
  - cbn. split; [reflexivity|]. exists [].
    rewrite add_to_previous_ids, app_nil_r. split; [reflexivity | cbn; lia].
  - destruct (hard_duplicates _ _ _); cbn; (split; [reflexivity|]).
    + eexists [_]. rewrite map_app. split; [reflexivity | cbn; lia].
    + exists []. rewrite app_nil_r. split; [reflexivity | cbn; lia].
Qed.

(** X15.  Over the content blocks of a norm the paragraphs are only added
    at the end: a paragraph keeps its id and its place, each block adds at
    most one paragraph, and the counter [p_i] goes up by one per block. *)
Theorem paragraphs_are_appended (filename key_process nid : string)
    (output_norms : list norm) (blocks : list tag) (st : numbering) :
  let st' :=
    fold_left
      (process_P num_tokens_from_string filename key_process nid
         output_norms) blocks st in
  p_i st' = (p_i st + N.of_nat (List.length blocks))%N
  /\ exists more,
       map paragraph_id (this_paragraphs st')
       = (map paragraph_id (this_paragraphs st) ++ more)%list
       /\ (List.length more <= List.length blocks)%nat.
Proof.
  revert st. induction blocks as [|P blocks IH]; intros st.
  - cbn. split; [lia|]. exists []. now rewrite app_nil_r.
  - cbn [fold_left].
    destruct (process_P_shape filename key_process nid output_norms st P)
      as (Hi & more1 & Hm1 & Hl1).
    destruct (IH (process_P num_tokens_from_string filename key_process nid
                    output_norms st P)) as (Hi2 & more2 & Hm2 & Hl2).
    split.
    + rewrite Hi2, Hi. cbn [List.length]. lia.
    + exists (more1 ++ more2)%list. rewrite Hm2, Hm1, app_assoc.
      split; [reflexivity|]. rewrite List.length_app. cbn [List.length]. lia.
Qed.

(** X16.  In a norm that is numbered, a block without a number is dropped
    when no paragraph has the id [p_i - 1]: the paragraphs and the reports
    stay as they are, and the text of the block is in neither. *)
Theorem continuation_without_target_is_dropped
    (filename key_process nid : string) (output_norms : list norm)
    (st : numbering) (P : tag) (first_part : string) (rest : list string) :
  p_is_numbered st = true ->
  P_split P = first_part :: rest ->
  re_search pattern_number first_part = None ->
  id_free (str_of_N (p_i st)) (this_paragraphs st) = true ->
  process_P num_tokens_from_string filename key_process nid output_norms
    st P
  = {| p_i := p_i st + 1; p_is_numbered := true;
       this_paragraphs := this_paragraphs st;
       unprocessed := unprocessed st |}.
Proof.
  intros Hnum Hsplit Hno Hfree.
  unfold process_P, number_of. rewrite Hsplit, Hno, Hnum.
  replace (p_i st + 1 - 1)%N with (p_i st) by lia.
  now rewrite add_to_previous_absent.
Qed.

Lemma number_of_no_number (st : numbering) (P : tag) :
  p_is_numbered st = false ->
  no_number P = true ->
  number_of st P = (str_of_N (p_i st + 1), false, false).
Proof.
  intros Hnum Hno. unfold number_of, no_number in *.
  destruct (P_split P) as [|first_part rest]; [now rewrite Hnum|].
  destruct (re_search pattern_number first_part); [discriminate|].
  now rewrite Hnum.
Qed.

Lemma counted_blocks (filename key_process nid : string)
    (output_norms : list norm) (blocks : list tag) (st : numbering) :
  p_is_numbered st = false ->
  forallb no_number blocks = true ->
  norm_id_free nid output_norms = true ->
  fold_left
    (process_P num_tokens_from_string filename key_process nid output_norms)
    blocks st
  = {| p_i := p_i st + N.of_nat (List.length blocks);
       p_is_numbered := false;
       this_paragraphs :=
         (this_paragraphs st
          ++ counted_from num_tokens_from_string (p_i st) blocks)%list;
       unprocessed := unprocessed st |}.
Proof.
  intros Hnum Hblocks Hfree. revert st Hnum.
  induction blocks as [|P blocks IH]; intros st Hnum.
  - cbn. rewrite app_nil_r, N.add_0_r. destruct st. cbn in Hnum. now subst.
  - cbn in Hblocks. apply andb_true_iff in Hblocks as [HP Hblocks].
    cbn [fold_left]. unfold process_P at 2.
    rewrite (number_of_no_number st P Hnum HP).
    cbn [p_obj_of paragraph_id].
    rewrite (no_hard_duplicates output_norms nid _ Hfree).
    rewrite (IH Hblocks); [|reflexivity].
    cbn [p_i p_is_numbered this_paragraphs unprocessed counted_from].
    rewrite <- app_assoc. cbn [app List.length].
    f_equal. lia.
Qed.

(** X17.  In a norm in which no block begins with a number, and whose
    [norm_id] no earlier norm has, every block is a paragraph and the ids
    are the positions "1", "2", ... of the blocks; nothing is reported. *)
Theorem unnumbered_norm_is_counted (filename key_process nid : string)
    (output_norms : list norm) (reports : list string) (law : tag) :
  forallb no_number (content_blocks law) = true ->
  norm_id_free nid output_norms = true ->
  process_content num_tokens_from_string filename key_process nid
    output_norms reports law
  = (counted_from num_tokens_from_string 0 (content_blocks law), reports)
  /\ map paragraph_id
       (counted_from num_tokens_from_string 0 (content_blocks law))
     = map (fun i => str_of_N (N.of_nat i))
         (seq 1 (List.length (content_blocks law))).
Proof.
  intros Hblocks Hfree. split.
  - unfold process_content.
    rewrite (counted_blocks filename key_process nid output_norms
               (content_blocks law)
               {| p_i := 0; p_is_numbered := false; this_paragraphs := [];
                  unprocessed := reports |} eq_refl Hblocks Hfree).
    reflexivity.
  - generalize (content_blocks law) as blocks. intros blocks.
    change 0%N with (N.of_nat 0). generalize 0%nat as i.
    induction blocks as [|P blocks IH]; intros i; [reflexivity|].
    cbn [counted_from map List.length seq p_obj_of paragraph_id].
    replace (N.of_nat i + 1)%N with (N.of_nat (S i)) by lia.
    now rewrite IH.
Qed.

(** ** The loop over the norms *)

Lemma process_P_reports (filename key_process nid : string)
    (output_norms : list norm) (st : numbering) (P : tag) :
  exists more,
    unprocessed
      (process_P num_tokens_from_string filename key_process nid
         output_norms st P)
    = (unprocessed st ++ more)%list
    /\ (norm_id_free nid output_norms = true -> more = []).
Proof.
  unfold process_P.
  destruct (number_of st P) as [[number numbered] number_missing].
  destruct number_missing.
  - exists []. cbn. now rewrite app_nil_r.
  - destruct (hard_duplicates output_norms nid _) as [|n dups] eqn:E.
    + exists []. cbn. now rewrite app_nil_r.
    + eexists. cbn [unprocessed]. split; [reflexivity|].
      intros Hfree. rewrite (no_hard_duplicates _ _ _ Hfree) in E.
      discriminate.
Qed.

Lemma process_content_reports (filename key_process nid : string)
    (output_norms : list norm) (reports : list string) (law : tag) :
  exists more,
    snd (process_content num_tokens_from_string filename key_process nid
           output_norms reports law)
    = (reports ++ more)%list
    /\ (norm_id_free nid output_norms = true -> more = []).
Proof.
  unfold process_content. cbn [snd].
  set (st0 := {| p_i := 0; p_is_numbered := false; this_paragraphs := [];
                 unprocessed := reports |}).
  change reports with (unprocessed st0).
  generalize st0. clear st0.
  induction (content_blocks law) as [|P blocks IH]; intros st.
  - exists []. cbn. now rewrite app_nil_r.
  - cbn [fold_left].
    destruct (process_P_reports filename key_process nid output_norms st P)
      as (m1 & H1 & F1).
    destruct (IH (process_P num_tokens_from_string filename key_process nid
                    output_norms st P)) as (m2 & H2 & F2).
    exists (m1 ++ m2)%list. rewrite H2, H1, app_assoc.
    split; [reflexivity|]. intros Hfree. now rewrite F1, F2.
Qed.

Lemma process_norm_cases (filename key_process : string)
    (ns : list norm) (u : list string) (law : tag)
    (ns' : list norm) (u' : list string) :
  process_norm num_tokens_from_string filename key_process (ns, u) law
  = Ok (ns', u') ->
  (ns' = ns /\ u' = u)
  \/ exists n more,
       ns' = (ns ++ [n])%list
       /\ u' = (u ++ more)%list
       /\ (norm_id_free (norm_id n) ns = true -> more = []).
Proof.
  unfold process_norm.
  destruct (convert_found (Soup.find "metadaten" law)) as [md|x];
    [|discriminate].
  cbn [res_bind].
  destruct (norm_id_of md) as [[nid|]|x]; cbn [res_bind]; try discriminate.
  - destruct (process_content_reports filename key_process nid ns u law)
      as (more & Hm & Hf).
    destruct (process_content num_tokens_from_string filename key_process nid
                ns u law) as [ps u1].
    cbn [snd] in Hm. intros [= <- <-]. right.
    eexists. exists more. cbn [norm_id]. auto.
  - intros [= <- <-]. now left.
Qed.

Lemma process_norms_extends (filename key_process : string)
    (laws : list tag) (ns0 ns : list norm) (u0 u : list string) :
  process_norms num_tokens_from_string filename key_process (ns0, u0) laws
  = Ok (ns, u) ->
  exists more more_reports,
    ns = (ns0 ++ more)%list
    /\ (List.length more <= List.length laws)%nat
    /\ u = (u0 ++ more_reports)%list.
Proof.
  revert ns0 u0. induction laws as [|law laws IH]; intros ns0 u0.
  - cbn. intros [= <- <-]. exists [], []. now rewrite !app_nil_r.
  - cbn [process_norms].
    destruct (process_norm num_tokens_from_string filename key_process
                (ns0, u0) law) as [[ns1 u1]|x] eqn:E; [|discriminate].
    cbn [res_bind]. intros H.
    destruct (IH ns1 u1 H) as (more & mr & -> & Hl & ->).
    apply process_norm_cases in E as [[-> ->]|(n & m1 & -> & -> & _)].
    + exists more, mr. cbn [List.length]. auto.
    + exists (n :: more), (m1 ++ mr)%list.
      rewrite <- !app_assoc. cbn [app List.length]. split; [reflexivity|].
      split; [lia | reflexivity].
Qed.

(** X18.  Over the norm nodes of a document the output only grows at its
    end: the norms and the reports found before stay in place, and each
    norm node adds at most one norm. *)
Theorem norms_are_appended (filename key_process : string)
    (laws : list tag) (ns0 ns : list norm) (u0 u : list string) :
  process_norms num_tokens_from_string filename key_process (ns0, u0) laws
  = Ok (ns, u) ->
  exists more more_reports,
    ns = (ns0 ++ more)%list
    /\ (List.length more <= List.length laws)%nat
    /\ u = (u0 ++ more_reports)%list.
Proof. apply process_norms_extends. Qed.

(** X19.  Reports come from repeated designations only: when the norms of
    the output have pairwise different [norm_id]s, no content block was
    reported. *)
Theorem distinct_norm_ids_give_no_reports (filename key_process : string)
    (laws : list tag) (ns0 ns : list norm) (u0 u : list string) :
  process_norms num_tokens_from_string filename key_process (ns0, u0) laws
  = Ok (ns, u) ->
  NoDup (map norm_id ns) ->
  u = u0.
Proof.
  revert ns0 u0. induction laws as [|law laws IH]; intros ns0 u0.
  - cbn. now intros [= <- <-].
  - cbn [process_norms].
    destruct (process_norm num_tokens_from_string filename key_process
                (ns0, u0) law) as [[ns1 u1]|x] eqn:E; [|discriminate].
    cbn [res_bind]. intros H Hnd.
    rewrite (IH ns1 u1 H Hnd).
    apply process_norm_cases in E as [[_ ->]|(n & m1 & -> & -> & Hfree)];
      [reflexivity|].
    destruct (process_norms_extends filename key_process laws _ _ _ _ H)
      as (more & _ & -> & _ & _).
    rewrite Hfree; [now rewrite app_nil_r|].
    rewrite <- app_assoc, map_app in Hnd. cbn [app map] in Hnd.
    apply NoDup_remove_2 in Hnd.
    unfold norm_id_free. apply forallb_forall. intros x Hx.
    apply negb_true_iff, String.eqb_neq. intros Heq.
    apply Hnd. apply in_or_app. left. rewrite <- Heq. now apply in_map.
Qed.

(** ** Norms with well-formed numbers *)

Lemma leading_blocks (filename key_process nid : string)
    (output_norms : list norm) (blocks : list tag) (numbers : list string) :
  Forall2 leads_with blocks numbers ->
  NoDup numbers ->
  norm_id_free nid output_norms = true ->
  forall st,
    forallb (fun ds => id_free ds (this_paragraphs st)) numbers = true ->
    map paragraph_id
      (this_paragraphs
         (fold_left
            (process_P num_tokens_from_string filename key_process nid
               output_norms) blocks st))
    = (map paragraph_id (this_paragraphs st) ++ numbers)%list
    /\ unprocessed
         (fold_left
            (process_P num_tokens_from_string filename key_process nid
               output_norms) blocks st)
       = unprocessed st.
Proof.
  intros Hlead. induction Hlead as [|P ds blocks numbers HP _ IH];
    intros Hnd Hfree st Hst.
  - cbn. now rewrite app_nil_r.
  - cbn in Hst. apply andb_true_iff in Hst as [Hds Hst].
    inversion Hnd as [|x l Hnotin Hnd']; subst.
    cbn [fold_left].
    assert (Hstep :
      process_P num_tokens_from_string filename key_process nid output_norms
        st P
      = {| p_i := p_i st + 1; p_is_numbered := true;
           this_paragraphs :=
             (this_paragraphs st
              ++ [p_obj_of num_tokens_from_string ds P])%list;
           unprocessed := unprocessed st |}).
    { unfold process_P. rewrite (number_of_leading st P ds HP Hds).
      cbn [p_obj_of paragraph_id].
      now rewrite (no_hard_duplicates output_norms nid ds Hfree). }
    rewrite Hstep.
    match goal with |- context [fold_left _ blocks ?s] => set (st1 := s) end.
    destruct (IH Hnd' Hfree st1) as [Hids Hun].
    { subst st1. cbn [this_paragraphs].
      apply forallb_forall. intros x Hx.
      rewrite id_free_app. apply andb_true_iff. split.
      - rewrite forallb_forall in Hst. now apply Hst.
      - cbn. rewrite andb_true_r. apply negb_true_iff, String.eqb_neq.
        intros <-. contradiction. }
    rewrite Hids, Hun. subst st1. cbn [this_paragraphs unprocessed].
    rewrite map_app, <- app_assoc. split; reflexivity.
Qed.

(** X20.  A norm whose content blocks begin with pairwise different
    decimal numbers, and whose [norm_id] no earlier norm has, gets one
    paragraph per block with these numbers as ids, in the order of the
    blocks; nothing is reported. *)
Theorem well_numbered_norm (filename key_process nid : string)
    (output_norms : list norm) (reports : list string) (law : tag)
    (numbers : list string) :
  Forall2 leads_with (content_blocks law) numbers ->
  NoDup numbers ->
  norm_id_free nid output_norms = true ->
  map paragraph_id
    (fst (process_content num_tokens_from_string filename key_process nid
            output_norms reports law))
  = numbers
  /\ snd (process_content num_tokens_from_string filename key_process nid
            output_norms reports law)
     = reports.
Proof.
  intros Hlead Hnd Hfree. unfold process_content. cbn [fst snd].
  apply (leading_blocks filename key_process nid output_norms
           (content_blocks law) numbers Hlead Hnd Hfree
           {| p_i := 0; p_is_numbered := false; this_paragraphs := [];
              unprocessed := reports |}).
  cbn [this_paragraphs]. apply forallb_forall. reflexivity.
Qed.

(** ** The renaming of the earlier law *)

Lemma register_key_frame (f key_planned key_process : string) (w : world) :
  json_dir (world_of (register_key f key_planned key_process w))
  = json_dir w
  /\ printed (world_of (register_key f key_planned key_process w))
     = printed w.
Proof.
  unfold register_key, bind, read, lift, ret, set_all_laws, set_file_keys,
    update.
  destruct (Dict.mem hkey_eqb (Some key_process) (file_keys w)
            || Dict.mem hkey_eqb (Some key_planned) (file_keys w));
    [|now split].
  destruct (subscript (all_laws w) (Some key_process)) as [previous|x];
    [|now split].
  destruct (candidate (metadaten previous)) as [corrected|x]; [|now split].
  destruct (negb (pyval_eqb corrected (VStr key_process))); [|now split].
  destruct (hashable corrected) as [ck|x]; [|now split].
  cbn [all_laws file_keys json_dir printed].
  destruct (subscript (file_keys w) (Some key_process)) as [pf|x];
    now split.
Qed.

(** X21.  A document whose year-stripped key [s] is taken by an earlier
    law with the identifier [kp1]: in the dictionaries of the process the
    earlier law is moved from [s] to [kp1], the document is registered
    under its own identifier [kp2] with the year, and [s] is free again,
    whenever the three are different and the keys of the dictionaries are
    distinct. *)
Theorem earlier_law_is_renamed (d : document) (w : world)
    (md : list (string * pyval)) (kp1 kp2 f1 : string) (rec1 : law) :
  NoDup (map fst (file_keys w)) ->
  NoDup (map fst (all_laws w)) ->
  convert_found (Soup.find "metadaten" (soup d)) = Ok (VDict md) ->
  first_of_lists (jurabk_or_amtabk md) = Ok (VStr kp2) ->
  Dict.get hkey_eqb (Some (without_year kp2)) (file_keys w) = Some f1 ->
  Dict.get hkey_eqb (Some (without_year kp2)) (all_laws w) = Some rec1 ->
  candidate (metadaten rec1) = Ok (VStr kp1) ->
  kp1 <> without_year kp2 ->
  kp2 <> without_year kp2 ->
  kp1 <> kp2 ->
  let w' := world_of (process_file num_tokens_from_string py_repr d w) in
  Dict.get hkey_eqb (Some kp1) (file_keys w') = Some f1
  /\ Dict.get hkey_eqb (Some kp2) (file_keys w') = Some (filename d)
  /\ Dict.get hkey_eqb (Some (without_year kp2)) (file_keys w') = None
  /\ Dict.get hkey_eqb (Some kp1) (all_laws w') = Some rec1
  /\ Dict.get hkey_eqb (Some (without_year kp2)) (all_laws w') = None.
Proof.
  intros Hfk Hal Hmd Hc Hf1 Hrec Hcand H1s H2s H12 w'. subst w'.
  set (s := without_year kp2) in *.
  assert (N1s : Some kp1 <> Some s) by congruence.
  assert (N2s : Some s <> Some kp2) by congruence.
  assert (N12 : Some kp1 <> Some kp2) by congruence.
  assert (Hreg :
    register_key (filename d) kp2 s w
    = Done kp2
        {| all_laws :=
             Dict.del hkey_eqb (Some s)
               (Dict.set hkey_eqb (Some kp1) rec1 (all_laws w));
           file_keys :=
             Dict.set hkey_eqb (Some kp2) (filename d)
               (Dict.del hkey_eqb (Some s)
                  (Dict.set hkey_eqb (Some kp1) f1 (file_keys w)));
           json_dir := json_dir w; printed := printed w |}).
  { unfold register_key, bind, read, lift, ret, set_all_laws, set_file_keys,
      update, subscript, Dict.mem.
    rewrite Hf1. cbn [orb]. rewrite Hrec, Hcand.
    cbn [pyval_eqb].
    replace (String.eqb kp1 s) with false
      by (symmetry; now apply String.eqb_neq).
    cbn [negb hashable all_laws file_keys json_dir printed].
    now rewrite Hf1. }
  assert (Hfinal :
    let w1 := world_of (process_file num_tokens_from_string py_repr d w) in
    file_keys w1
    = Dict.set hkey_eqb (Some kp2) (filename d)
        (Dict.del hkey_eqb (Some s)
           (Dict.set hkey_eqb (Some kp1) f1 (file_keys w)))
    /\ forall k, k <> Some kp2 ->
         Dict.get hkey_eqb k (all_laws w1)
         = Dict.get hkey_eqb k
             (Dict.del hkey_eqb (Some s)
                (Dict.set hkey_eqb (Some kp1) rec1 (all_laws w)))).
  { unfold process_file, bind, lift. rewrite Hmd.
    cbn [py_get py_get_default candidate res_bind].
    fold (jurabk_or_amtabk md). rewrite Hc.
    cbn [remove_year_from_key as_str]. fold (without_year kp2). fold s.
    rewrite Hreg.
    destruct (alt_of "jurabk" (VDict md)); [|now split].
    destruct (alt_of "amtabk" (VDict md)); [|now split].
    destruct (process_norms _ _ _ _ _); [|now split].
    destruct (negb (String.eqb kp2 EmptyString)).
    - cbn [set_all_laws write_json update world_of all_laws file_keys].
      split; [reflexivity|]. intros k Hk.
      now apply (dict_get_set_neq hkey_eqb hkey_eqb_eq).
    - cbn [print update world_of all_laws file_keys]. now split. }
  destruct Hfinal as [Hfk' Hal']. rewrite Hfk'.
  rewrite !Hal' by congruence.
  assert (Hfk1 : NoDup (map fst (Dict.set hkey_eqb (Some kp1) f1 (file_keys w))))
    by now apply (dict_set_nodup hkey_eqb hkey_eqb_eq).
  assert (Hal1 : NoDup (map fst (Dict.set hkey_eqb (Some kp1) rec1 (all_laws w))))
    by now apply (dict_set_nodup hkey_eqb hkey_eqb_eq).
  repeat split.
  - rewrite (dict_get_set_neq hkey_eqb hkey_eqb_eq) by exact N12.
    rewrite (dict_get_del_neq hkey_eqb hkey_eqb_eq) by exact N1s.
    apply dict_get_set_eq, hkey_eqb_eq.
  - apply dict_get_set_eq, hkey_eqb_eq.
  - rewrite (dict_get_set_neq hkey_eqb hkey_eqb_eq) by exact N2s.
    now apply (dict_get_del_eq hkey_eqb hkey_eqb_eq).
  - rewrite (dict_get_del_neq hkey_eqb hkey_eqb_eq) by exact N1s.
    apply dict_get_set_eq, hkey_eqb_eq.
  - now apply (dict_get_del_eq hkey_eqb hkey_eqb_eq).
Qed.

(** X22.  [process_file] writes no JSON file but the one of its document:
    under every other name the output folder holds what it held before,
    whether the call returns or raises.  A later renaming of a law
    therefore never changes the key in the JSON file of that law. *)
Theorem other_json_files_untouched (d : document) (w : world)
    (name : string) :
  name <> json_name (filename d) ->
  Dict.get String.eqb name
    (json_dir (world_of (process_file num_tokens_from_string py_repr d w)))
  = Dict.get String.eqb name (json_dir w).
Proof.
  intros Hne. unfold process_file, bind, lift.
  destruct (convert_found (Soup.find "metadaten" (soup d))) as [md|x];
    [|reflexivity].
  destruct (py_get "ausfertigung-datum" md) as [lc|x]; [|reflexivity].
  destruct (res_bind (candidate md) first_of_lists) as [kp|x];
    [|reflexivity].
  destruct (remove_year_from_key kp) as [kpr|x]; [|reflexivity].
  destruct (as_str kp) as [kps|x]; [|reflexivity].
  destruct (as_str kpr) as [kprs|x]; [|reflexivity].
  destruct (register_key_frame (filename d) kps kprs w) as [Hjd _].
  destruct (register_key (filename d) kps kprs w) as [k w1|x w1];
    cbn [world_of] in Hjd; [|cbn [world_of]; now rewrite Hjd].
  destruct (alt_of "jurabk" md) as [aj|x];
    [|cbn [world_of]; now rewrite Hjd].
  destruct (alt_of "amtabk" md) as [aa|x];
    [|cbn [world_of]; now rewrite Hjd].
  destruct (process_norms _ _ _ _ _) as [found|x];
    [|cbn [world_of]; now rewrite Hjd].
  destruct (negb (String.eqb k EmptyString)).
  - cbn [set_all_laws write_json update world_of json_dir].
    rewrite (dict_get_set_neq String.eqb String.eqb_eq) by exact Hne.
    now rewrite Hjd.
  - cbn [print update world_of json_dir]. now rewrite Hjd.
Qed.

(** X23.  When the key of a document is taken by a law whose identifier
    was given more than once (its [jurabk] is a list), the renaming of
    line 142 raises [TypeError], a list being no key of a dictionary; the
    call changes nothing and does not register the document. *)
Theorem registered_list_identifier_raises (d : document) (w : world)
    (md : list (string * pyval)) (key_planned : string) (rec1 : law)
    (l : list pyval) :
  convert_found (Soup.find "metadaten" (soup d)) = Ok (VDict md) ->
  first_of_lists (jurabk_or_amtabk md) = Ok (VStr key_planned) ->
  Dict.mem hkey_eqb (Some (without_year key_planned)) (file_keys w)
  || Dict.mem hkey_eqb (Some key_planned) (file_keys w) = true ->
  Dict.get hkey_eqb (Some (without_year key_planned)) (all_laws w)
  = Some rec1 ->
  candidate (metadaten rec1) = Ok (VList l) ->
  process_file num_tokens_from_string py_repr d w = Raised TypeError w.
Proof.
  intros Hmd Hc Hreg Hrec Hcand.
  unfold process_file, bind, lift. rewrite Hmd.
  cbn [py_get py_get_default candidate res_bind].
  fold (jurabk_or_amtabk md). rewrite Hc.
  cbn [remove_year_from_key as_str]. fold (without_year key_planned).
  unfold register_key, bind, read, lift.
  rewrite Hreg. unfold subscript. rewrite Hrec, Hcand. reflexivity.
Qed.

(** ** The registry and the output dictionary *)

Lemma covers_after_key (f key_planned key_process : string) (w : world) :
  registry_covers_output w ->
  registry_covers_output
    (world_of (register_key f key_planned key_process w)).
Proof.
  intros Hw. pose proof Hw as (Hal & Hfk & Hincl).
  unfold register_key, bind, read, lift, ret, set_all_laws, set_file_keys,
    update.
  assert (Hset : forall (k : hkey) (al : list (hkey * law))
                   (fk : list (hkey * string)),
             NoDup (map fst al) -> NoDup (map fst fk) ->
             incl (map fst al) (map fst fk) ->
             registry_covers_output
               {| all_laws := al;
                  file_keys := Dict.set hkey_eqb k f fk;
                  json_dir := json_dir w; printed := printed w |}).
  { intros k al fk H1 H2 H3.
    split; [exact H1|]. split.
    - now apply (dict_set_nodup hkey_eqb hkey_eqb_eq).
    - intros x Hx. apply (dict_set_keys_in hkey_eqb hkey_eqb_eq).
      left. now apply H3. }
  destruct (Dict.mem hkey_eqb (Some key_process) (file_keys w)
            || Dict.mem hkey_eqb (Some key_planned) (file_keys w)).
  - unfold subscript.
    destruct (Dict.get hkey_eqb (Some key_process) (all_laws w))
      as [previous|] eqn:Eprev; [|exact Hw].
    destruct (candidate (metadaten previous)) as [corrected|x]; [|exact Hw].
    destruct (negb (pyval_eqb corrected (VStr key_process))).
    + destruct (hashable corrected) as [ck|x]; [|exact Hw].
      cbn [all_laws file_keys json_dir printed].
      assert (Hin : In (Some key_process) (map fst (file_keys w))).
      { apply Hincl. now apply (dict_get_in hkey_eqb hkey_eqb_eq _ previous). }
      destruct (Dict.get hkey_eqb (Some key_process) (file_keys w))
        as [pf|] eqn:Epf.
      2:{ apply (dict_get_none hkey_eqb hkey_eqb_eq) in Epf. contradiction. }
      cbn [all_laws file_keys json_dir printed world_of].
      apply Hset.
      * apply dict_del_nodup.
        now apply (dict_set_nodup hkey_eqb hkey_eqb_eq).
      * apply dict_del_nodup.
        now apply (dict_set_nodup hkey_eqb hkey_eqb_eq).
      * intros x Hx.
        apply (dict_del_keys hkey_eqb hkey_eqb_eq) in Hx as [Hx Hne];
          [|now apply (dict_set_nodup hkey_eqb hkey_eqb_eq)].
        apply (dict_del_keys hkey_eqb hkey_eqb_eq);
          [now apply (dict_set_nodup hkey_eqb hkey_eqb_eq)|].
        split; [|exact Hne].
        apply (dict_set_keys_in hkey_eqb hkey_eqb_eq) in Hx as [Hx|Hx].
        -- apply (dict_set_keys_in hkey_eqb hkey_eqb_eq). left.
           now apply Hincl.
        -- apply (dict_set_keys_in hkey_eqb hkey_eqb_eq). now right.
    + cbn [world_of]. now apply Hset.
  - cbn [world_of]. now apply Hset.
Qed.

Lemma covers_after_file (d : document) (w : world) :
  registry_covers_output w ->
  registry_covers_output
    (world_of (process_file num_tokens_from_string py_repr d w)).
Proof.
  intros Hw. unfold process_file, bind, lift.
  destruct (convert_found (Soup.find "metadaten" (soup d))) as [md|x];
    [|exact Hw].
  destruct (py_get "ausfertigung-datum" md) as [lc|x]; [|exact Hw].
  destruct (res_bind (candidate md) first_of_lists) as [kp|x]; [|exact Hw].
  destruct (remove_year_from_key kp) as [kpr|x]; [|exact Hw].
  destruct (as_str kp) as [kps|x]; [|exact Hw].
  destruct (as_str kpr) as [kprs|x]; [|exact Hw].
  pose proof (covers_after_key (filename d) kps kprs w Hw) as Hc.
  destruct (register_key (filename d) kps kprs w) as [k w1|x w1] eqn:Er;
    [|exact Hc].
  cbn [world_of] in Hc.
  apply register_key_done in Er as (_ & Hk & _ & _).
  apply (dict_get_in hkey_eqb hkey_eqb_eq) in Hk.
  destruct (alt_of "jurabk" md) as [aj|x]; [|exact Hc].
  destruct (alt_of "amtabk" md) as [aa|x]; [|exact Hc].
  destruct (process_norms _ _ _ _ _) as [found|x]; [|exact Hc].
  destruct (negb (String.eqb k EmptyString)).
  - unfold set_all_laws, write_json, update. cbn [world_of].
    destruct Hc as (H1 & H2 & H3).
    split; [|split]; cbn [all_laws file_keys].
    + now apply (dict_set_nodup hkey_eqb hkey_eqb_eq).
    + exact H2.
    + intros x Hx.
      apply (dict_set_keys_in hkey_eqb hkey_eqb_eq) in Hx as [Hx| ->];
        [now apply H3 | exact Hk].
  - unfold print, update. cbn [world_of]. exact Hc.
Qed.

(** X24.  Whatever the documents of a batch are, and whether calls raise
    or not, the two dictionaries of the module stay in step: each has
    distinct keys, and every key of the output dictionary is a key of the
    registry.  So the lookup of line 145 cannot raise in a run that
    starts with empty dictionaries. *)
Theorem registry_covers_output_always (docs : list document) :
  registry_covers_output
    (snd (process_all num_tokens_from_string py_repr docs empty_world)).
Proof.
  assert (G : forall w,
             registry_covers_output w ->
             registry_covers_output
               (snd (process_all num_tokens_from_string py_repr docs w))).
  { induction docs as [|d docs IH]; intros w Hw; [exact Hw|].
    cbn [process_all].
    pose proof (covers_after_file d w Hw) as H.
    destruct (process_file num_tokens_from_string py_repr d w)
      as [[] w1|x w1]; cbn [world_of] in H.
    - now apply IH.
    - cbn [snd]. now apply IH. }
  apply G. repeat split; try constructor. easy.
Qed.

End FurtherProperties.

(** ** The further properties at the sample documents *)

Import More.

Lemma convert_children_rule_witness :
  (forall c s, Soup.tag_string two_jurabk <> Some (String c s))
  /\ exists d,
       convert_xml_to_dict two_jurabk = VDict d
       /\ Dict.get String.eqb "jurabk" d = Some (VList [VStr "A"; VStr "C"])
       /\ Dict.get String.eqb "amtabk" d = Some (VStr "B").
Proof.
  assert (H : forall c s, Soup.tag_string two_jurabk <> Some (String c s))
    by (intros c s; discriminate).
  split; [exact H|].
  destruct (convert_children_rule "metadaten" []
              [leaf "jurabk" "A"; leaf "amtabk" "B"; leaf "jurabk" "C"] H)
    as (d & Hc & _ & Hget).
  exists d. split; [exact Hc|]. split; rewrite Hget; reflexivity.
Defined.

Lemma number_of_bracketed_word_witness :
  (all_chars not_word "(" = true
   /\ "12" <> EmptyString
   /\ all_chars is_decimal "12" = true
   /\ word_after ")" = false)
  /\ re_search pattern_number "(12)" = Some "12".
Proof.
  split; [repeat split; discriminate|].
  exact (number_of_bracketed_word "(" "12" ")" eq_refl
           ltac:(discriminate) eq_refl eq_refl).
Defined.

Lemma missing_after_merge_witness :
  In "a.xml"
    (missing_files ["a.xml"; "b.xml"]
       (fst (merge (json_dir (after_batch [xyz_a; xyz_b])) [] [])))
  /\ forall k r,
       last_with_key k (json_dir (after_batch [xyz_a; xyz_b])) = Some r ->
       meta_source (output r) <> "a.xml".
Proof.
  assert (H : In "a.xml"
                (missing_files ["a.xml"; "b.xml"]
                   (fst (merge (json_dir (after_batch [xyz_a; xyz_b]))
                           [] []))))
    by (vm_compute; left; reflexivity).
  split; [exact H|].
  exact (proj2 (proj1 (missing_after_merge ["a.xml"; "b.xml"]
                         (json_dir (after_batch [xyz_a; xyz_b])) "a.xml") H)).
Defined.

Lemma metadata_read_as_string_fails_witness :
  (Soup.find "metadaten" (soup one_child) = Some only_jurabk
   /\ Soup.tag_string only_jurabk = Some "BGB")
  /\ run one_child empty_world = Raised AttributeError empty_world.
Proof.
  split; [split; reflexivity|].
  exact (proj2 (metadata_read_as_string_fails count_words no_repr one_child
                  empty_world only_jurabk "B" "GB" eq_refl eq_refl)).
Defined.

Lemma norm_metadata_read_as_string_skipped_witness :
  (Soup.find "metadaten" norm_one_child = Some only_enbez
   /\ Soup.tag_string only_enbez = Some (par "1"))
  /\ process_norm count_words "a.xml" "ABC" ([], []) norm_one_child
     = Ok ([], []).
Proof.
  split; [split; reflexivity|].
  exact (norm_metadata_read_as_string_skipped count_words "a.xml" "ABC"
           ([], []) norm_one_child only_enbez section_sign " 1"
           eq_refl eq_refl).
Defined.

Lemma completed_file_is_registered_witness :
  run ustg empty_world = Done tt (after ustg)
  /\ exists r,
       Dict.get String.eqb "u.json" (json_dir (after ustg)) = Some r
       /\ Dict.get hkey_eqb (Some (key r)) (file_keys (after ustg))
          = Some "u.xml"
       /\ Dict.get hkey_eqb (Some (key r)) (all_laws (after ustg))
          = Some (output r).
Proof.
  assert (H : run ustg empty_world = Done tt (after ustg))
    by (vm_compute; reflexivity).
  split; [exact H|].
  destruct (completed_file_is_registered count_words no_repr ustg
              empty_world (after ustg) H)
    as [(_ & _ & Hp)|(r & Hj & _ & Hf & Ha & _)].
  - vm_compute in Hp. discriminate Hp.
  - exists r. repeat split; assumption.
Defined.

Lemma unregistered_key_is_added_witness :
  (convert_found (Soup.find "metadaten" (soup abc2021))
   = Ok (VDict (md_of (VStr "ABC2021")))
   /\ first_of_lists (jurabk_or_amtabk (md_of (VStr "ABC2021")))
      = Ok (VStr "ABC2021")
   /\ Dict.mem hkey_eqb (Some (without_year "ABC2021"))
        (file_keys (after ustg)) = false
   /\ Dict.mem hkey_eqb (Some "ABC2021") (file_keys (after ustg)) = false)
  /\ file_keys (world_of (run abc2021 (after ustg)))
     = (file_keys (after ustg) ++ [(Some "ABC", "b.xml")])%list.
Proof.
  split; [repeat split|].
  exact (proj1 (unregistered_key_is_added count_words no_repr abc2021
                  (after ustg) (md_of (VStr "ABC2021")) "ABC2021"
                  eq_refl eq_refl eq_refl eq_refl)).
Defined.

Lemma registered_without_record_raises_witness :
  (convert_found (Soup.find "metadaten" (soup abc2020))
   = Ok (VDict (md_of (VStr "ABC2020")))
   /\ first_of_lists (jurabk_or_amtabk (md_of (VStr "ABC2020")))
      = Ok (VStr "ABC2020")
   /\ Dict.mem hkey_eqb (Some (without_year "ABC2020"))
        (file_keys (after_batch [abc2020; abc2021]))
      || Dict.mem hkey_eqb (Some "ABC2020")
           (file_keys (after_batch [abc2020; abc2021])) = true
   /\ Dict.get hkey_eqb (Some (without_year "ABC2020"))
        (all_laws (after_batch [abc2020; abc2021])) = None)
  /\ run abc2020 (after_batch [abc2020; abc2021])
     = Raised KeyError (after_batch [abc2020; abc2021]).
Proof.
  split; [repeat split|].
  exact (registered_without_record_raises count_words no_repr abc2020
           (after_batch [abc2020; abc2021]) (md_of (VStr "ABC2020"))
           "ABC2020" eq_refl eq_refl eq_refl eq_refl).
Defined.

Lemma alt_title_rule_witness :
  (run both_ids empty_world = Done tt (after both_ids)
   /\ convert_found (Soup.find "metadaten" (soup both_ids))
      = Ok (VDict both_ids_md)
   /\ Dict.get String.eqb "jurabk" both_ids_md = Some (VStr "ABC 1990")
   /\ Dict.get String.eqb "amtabk" both_ids_md = Some (VStr "XYZ"))
  /\ alt_title_expected "ABC 1990" "XYZ" = "ABC"
  /\ exists r,
       Dict.get String.eqb "k.json" (json_dir (after both_ids)) = Some r
       /\ meta_alt_title (output r) = "ABC".
Proof.
  assert (H : run both_ids empty_world = Done tt (after both_ids))
    by (vm_compute; reflexivity).
  split; [repeat split; exact H|]. split; [reflexivity|].
  destruct (alt_title_rule count_words no_repr both_ids empty_world
              (after both_ids) both_ids_md "ABC 1990" "XYZ"
              H eq_refl eq_refl eq_refl)
    as [Hp|(r & Hj & Ht)].
  - vm_compute in Hp. discriminate Hp.
  - exists r. split; [exact Hj | exact Ht].
Defined.

Lemma continuation_without_target_is_dropped_witness :
  (p_is_numbered after_two = true
   /\ P_split (block "c") = ["c"]
   /\ re_search pattern_number "c" = None
   /\ id_free (str_of_N (p_i after_two)) (this_paragraphs after_two) = true)
  /\ process_P count_words "a.xml" "ABC" (par "1") [] after_two (block "c")
     = {| p_i := 3; p_is_numbered := true;
          this_paragraphs := this_paragraphs after_two;
          unprocessed := [] |}.
Proof.
  split; [repeat split|].
  exact (continuation_without_target_is_dropped count_words "a.xml" "ABC"
           (par "1") [] after_two (block "c") "c" []
           eq_refl eq_refl eq_refl eq_refl).
Defined.

Lemma unnumbered_norm_is_counted_witness :
  (forallb no_number (content_blocks plain_norm) = true
   /\ norm_id_free (par "2") [] = true)
  /\ map paragraph_id
       (fst (process_content count_words "a.xml" "ABC" (par "2") [] []
               plain_norm))
     = ["1"; "2"].
Proof.
  split; [split; reflexivity|].
  destruct (unnumbered_norm_is_counted count_words "a.xml" "ABC" (par "2")
              [] [] plain_norm eq_refl eq_refl) as [H1 H2].
  rewrite H1. cbn [fst]. rewrite H2. reflexivity.
Defined.

Lemma norms_are_appended_witness :
  exists ns u,
    process_norms count_words "a.xml" "ABC" ([], []) [plain_norm; contents_node]
    = Ok (ns, u)
    /\ exists more more_reports,
         ns = ([] ++ more)%list
         /\ (List.length more <= 2)%nat
         /\ u = ([] ++ more_reports)%list.
Proof.
  destruct (process_norms count_words "a.xml" "ABC" ([], [])
              [plain_norm; contents_node]) as [[ns u]|e] eqn:E.
  - exists ns, u. split; [reflexivity|].
    exact (norms_are_appended count_words "a.xml" "ABC"
             [plain_norm; contents_node] [] ns [] u E).
  - vm_compute in E. discriminate E.
Defined.

Lemma distinct_norm_ids_give_no_reports_witness :
  exists ns u,
    process_norms count_words "a.xml" "ABC" ([], [])
      [plain_norm; numbered_norm] = Ok (ns, u)
    /\ NoDup (map norm_id ns)
    /\ u = [].
Proof.
  destruct (process_norms count_words "a.xml" "ABC" ([], [])
              [plain_norm; numbered_norm]) as [[ns u]|e] eqn:E.
  - assert (Hnd : NoDup (map norm_id ns)).
    { vm_compute in E. injection E as <- <-. cbn.
      constructor; [intros [H|[]]; discriminate H|].
      constructor; [intros []|constructor]. }
    exists ns, u. split; [reflexivity|]. split; [exact Hnd|].
    exact (distinct_norm_ids_give_no_reports count_words "a.xml" "ABC"
             [plain_norm; numbered_norm] [] ns [] u E Hnd).
  - vm_compute in E. discriminate E.
Defined.

Lemma leads_with_one : leads_with (block "(1) One.") "1".
Proof.
  exists "(", ")", ["One."].
  repeat split; discriminate.
Defined.

Lemma leads_with_two : leads_with (block "(2) Two.") "2".
Proof.
  exists "(", ")", ["Two."].
  repeat split; discriminate.
Defined.

Lemma well_numbered_norm_witness :
  (Forall2 leads_with (content_blocks numbered_norm) ["1"; "2"]
   /\ NoDup ["1"; "2"]
   /\ norm_id_free (par "3") [] = true)
  /\ map paragraph_id
       (fst (process_content count_words "a.xml" "ABC" (par "3") [] []
               numbered_norm))
     = ["1"; "2"].
Proof.
  assert (H1 : Forall2 leads_with (content_blocks numbered_norm) ["1"; "2"]).
  { repeat constructor; [exact leads_with_one | exact leads_with_two]. }
  assert (H2 : NoDup ["1"; "2"]).
  { constructor; [intros [H|[]]; discriminate H|].
    constructor; [intros []|constructor]. }
  split; [repeat split; assumption|].
  exact (proj1 (well_numbered_norm count_words "a.xml" "ABC" (par "3") [] []
                  numbered_norm ["1"; "2"] H1 H2 eq_refl)).
Defined.

Lemma earlier_law_is_renamed_witness :
  (NoDup (map fst (file_keys (after abc2020)))
   /\ NoDup (map fst (all_laws (after abc2020)))
   /\ convert_found (Soup.find "metadaten" (soup abc2021))
      = Ok (VDict (md_of (VStr "ABC2021")))
   /\ first_of_lists (jurabk_or_amtabk (md_of (VStr "ABC2021")))
      = Ok (VStr "ABC2021")
   /\ Dict.get hkey_eqb (Some (without_year "ABC2021"))
        (file_keys (after abc2020)) = Some "a.xml"
   /\ Dict.get hkey_eqb (Some (without_year "ABC2021"))
        (all_laws (after abc2020))
      = Some (record_of_sample "a.xml" (VStr "ABC2020"))
   /\ candidate (metadaten (record_of_sample "a.xml" (VStr "ABC2020")))
      = Ok (VStr "ABC2020")
   /\ "ABC2020" <> without_year "ABC2021"
   /\ "ABC2021" <> without_year "ABC2021"
   /\ "ABC2020" <> "ABC2021")
  /\ Dict.get hkey_eqb (Some "ABC2020")
       (file_keys (world_of (run abc2021 (after abc2020)))) = Some "a.xml"
  /\ Dict.get hkey_eqb (Some "ABC2021")
       (file_keys (world_of (run abc2021 (after abc2020)))) = Some "b.xml"
  /\ Dict.get hkey_eqb (Some "ABC")
       (file_keys (world_of (run abc2021 (after abc2020)))) = None.
Proof.
  assert (N1 : NoDup (map fst (file_keys (after abc2020)))).
  { vm_compute. constructor; [intros []|constructor]. }
  assert (N2 : NoDup (map fst (all_laws (after abc2020)))).
  { vm_compute. constructor; [intros []|constructor]. }
  assert (D1 : "ABC2020" <> without_year "ABC2021")
    by (vm_compute; discriminate).
  assert (D2 : "ABC2021" <> without_year "ABC2021")
    by (vm_compute; discriminate).
  assert (D3 : "ABC2020" <> "ABC2021") by discriminate.
  split; [repeat split; assumption || reflexivity|].
  destruct (earlier_law_is_renamed count_words no_repr abc2021
              (after abc2020) (md_of (VStr "ABC2021")) "ABC2020" "ABC2021"
              "a.xml" (record_of_sample "a.xml" (VStr "ABC2020"))
              N1 N2 eq_refl eq_refl eq_refl eq_refl eq_refl D1 D2 D3)
    as (H1 & H2 & H3 & _).
  split; [exact H1|]. split; [exact H2 | exact H3].
Defined.

Lemma other_json_files_untouched_witness :
  "a.json" <> json_name (filename abc2021)
  /\ Dict.get String.eqb "a.json"
       (json_dir (world_of (run abc2021 (after abc2020))))
     = Dict.get String.eqb "a.json" (json_dir (after abc2020)).
Proof.
  assert (H : "a.json" <> json_name (filename abc2021))
    by (vm_compute; discriminate).
  split; [exact H|].
  exact (other_json_files_untouched count_words no_repr abc2021
           (after abc2020) "a.json" H).
Defined.

Lemma registered_list_identifier_raises_witness :
  (convert_found (Soup.find "metadaten" (soup abc2021))
   = Ok (VDict (md_of (VStr "ABC2021")))
   /\ first_of_lists (jurabk_or_amtabk (md_of (VStr "ABC2021")))
      = Ok (VStr "ABC2021")
   /\ Dict.mem hkey_eqb (Some (without_year "ABC2021"))
        (file_keys (after listed))
      || Dict.mem hkey_eqb (Some "ABC2021") (file_keys (after listed)) = true
   /\ Dict.get hkey_eqb (Some (without_year "ABC2021"))
        (all_laws (after listed))
      = Some (record_of_sample "l.xml"
                (VList [VStr "ABC2020"; VStr "ABC"]))
   /\ candidate
        (metadaten
           (record_of_sample "l.xml" (VList [VStr "ABC2020"; VStr "ABC"])))
      = Ok (VList [VStr "ABC2020"; VStr "ABC"]))
  /\ run abc2021 (after listed) = Raised TypeError (after listed).
Proof.
  split; [repeat split|].
  exact (registered_list_identifier_raises count_words no_repr abc2021
           (after listed) (md_of (VStr "ABC2021")) "ABC2021"
           (record_of_sample "l.xml" (VList [VStr "ABC2020"; VStr "ABC"]))
           [VStr "ABC2020"; VStr "ABC"]
           eq_refl eq_refl eq_refl eq_refl eq_refl).
Defined.

Lemma blank_lines_are_collapsed_witness :
  (all_chars not_newline "One" = true
   /\ " " <> EmptyString
   /\ all_chars is_space " " = true
   /\ all_chars not_newline "Two" = true)
  /\ re_sub whitespace_pattern two_newlines
       ("One" ++ String newline (" " ++ String newline "Two"))
     = "One" ++ two_newlines ++ "Two".
Proof.
  split; [repeat split; discriminate|].
  exact (proj1 (blank_lines_are_collapsed "One" " " "Two" eq_refl
                  ltac:(discriminate) eq_refl eq_refl eq_refl)).
Defined.
